(** * weko-itemtypes-ui: the blueprint's views, embedded and verified

    A shallow embedding of [weko_itemtypes_ui/views.py].  Every view
    function of the blueprint is a computation in a small state and
    exception monad over a [world]: the committed database, the state of
    the ORM session and the chronological trace of the calls made to the
    collaborators.  The records API ([ItemTypes], [ItemTypeProps],
    [Mapping]), the session's commit, the JSON codec, the translation
    function and the application's configuration are not part of the
    module: they are the fields of the class [Collaborators], and every
    theorem holds for all of its instances.  Module [Memory] is one such
    instance (an in-memory store, a JSON reader and writer for the integer
    fragment of JSON) on which the views can be run. *)

From Stdlib Require Import ZArith List String Ascii Bool Lia DecimalString.
From Stdlib Require DecimalPos DecimalZ.
Import ListNotations.

Set Warnings "-register-all".

Open Scope string_scope.
Open Scope list_scope.
Open Scope Z_scope.

(** ** Python values *)

(** What [request.get_json()] and [json.loads] return: [None], [bool],
    [int], [str], [list] and [dict].  A [dict] keeps its keys in insertion
    order, hence the association list.  Numbers are Python's unbounded
    [int]; the views never compute on a number of a payload. *)
Inductive json : Type :=
| JNull
| JBool (b : bool)
| JInt (n : Z)
| JStr (s : string)
| JList (items : list json)
| JDict (members : list (string * json)).

Fixpoint assoc_get (k : string) (kv : list (string * json)) : option json :=
  match kv with
  | [] => None
  | (k', v) :: rest => if String.eqb k k' then Some v else assoc_get k rest
  end.

(** [d[k] = v] on a dict: an existing key keeps its place. *)
Fixpoint assoc_set (k : string) (v : json) (kv : list (string * json))
  : list (string * json) :=
  match kv with
  | [] => [(k, v)]
  | (k', v') :: rest =>
      if String.eqb k k' then (k, v) :: rest else (k', v') :: assoc_set k v rest
  end.

(** [str(n)] for an [int]. *)
Definition str_of_int (n : Z) : string := NilZero.string_of_int (Z.to_int n).

(** ** Exceptions *)

(** The exceptions that occur in the module.  [HTTPException] is what
    werkzeug's [abort] raises, and [get_json] on a body that does not
    parse (a 400); [KeyError] is raised by [request.headers[_]] for a
    header the environ does not have, under the name of the variable of
    the environ.  [Error] stands for any other exception
    class deriving from [Exception] that a collaborator may raise.  The
    last three derive from [BaseException] only. *)
Inductive exn : Type :=
| HTTPException (code : Z) (description : option string)
| KeyError (key : string)
| AttributeError
| TypeError
| JSONDecodeError
| Error (class_name : string)
| KeyboardInterrupt
| SystemExit
| GeneratorExit.

(** [isinstance(e, Exception)]. *)
Definition is_Exception (e : exn) : bool :=
  match e with
  | KeyboardInterrupt | SystemExit | GeneratorExit => false
  | _ => true
  end.

Inductive result (A : Type) : Type :=
| Ok (a : A)
| Raise (e : exn).
Arguments Ok {A} a.
Arguments Raise {A} e.

(** ** Records of the data layer *)

Record ItemType : Type := mkItemType {
  it_id : Z;
  it_schema : json;
  it_form : json;
  it_render : json
}.

Record ItemTypeProperty : Type := mkItemTypeProperty {
  prop_id : Z;
  prop_name : json;
  prop_schema : json;
  prop_form : json;
  prop_forms : json
}.

(** What [ItemTypes.update] returns: the record, of which the views read
    [record.model.id]. *)
Record ItemTypeRecord : Type := mkItemTypeRecord {
  model : ItemType
}.

(** The objects on which the views read an attribute. *)
Inductive object : Type :=
| ONone
| OJson (j : json)
| OItemType (it : ItemType)
| OProperty (p : ItemTypeProperty).

Inductive attribute : Type :=
| attr_id | attr_name | attr_schema | attr_form | attr_forms | attr_render.

(** [o.a].  None of the six names is an attribute of [None], of a [dict]
    or of any other JSON value. *)
Definition getattr (o : object) (a : attribute) : result json :=
  match o, a with
  | OItemType it, attr_id => Ok (JInt (it_id it))
  | OItemType it, attr_schema => Ok (it_schema it)
  | OItemType it, attr_form => Ok (it_form it)
  | OItemType it, attr_render => Ok (it_render it)
  | OProperty p, attr_id => Ok (JInt (prop_id p))
  | OProperty p, attr_name => Ok (prop_name p)
  | OProperty p, attr_schema => Ok (prop_schema p)
  | OProperty p, attr_form => Ok (prop_form p)
  | OProperty p, attr_forms => Ok (prop_forms p)
  | _, _ => Raise AttributeError
  end.

(** [d.get(k)] on a [dict]: [None] for a key it does not have. *)
Definition dict_get (kv : list (string * json)) (k : string) : json :=
  match assoc_get k kv with
  | Some v => v
  | None => JNull
  end.

(** [d.get(k)]: only a [dict] has the method. *)
Definition py_get (d : json) (k : string) : result json :=
  match d with
  | JDict kv => Ok (dict_get kv k)
  | _ => Raise AttributeError
  end.

(** ** Requests, responses, trace *)

Inductive method : Type := GET | POST.

Record request : Type := mkRequest {
  req_method : method;
  req_path : list string;          (* the segments after the prefix /itemtypes *)
  req_content_type : option string; (* the Content-Type header, when there is one *)
  req_body : string
}.

(** The values handed to a template. *)
Inductive tvalue : Type :=
| TItemTypes (l : list ItemType)
| TProperties (l : list ItemTypeProperty)
| TInt (n : Z)
| TStr (s : string).

Inductive response : Type :=
| jsonify (body : json)                                     (* 200, application/json *)
| render_template (template : string) (context : list (string * tvalue))
| redirect (location : string).                              (* 302 *)

Inductive logged : Type :=
| LStr (s : string)
| LJson (j : json)
| LExn (e : exn).

(** The calls to the data layer and to the session, with their
    arguments. *)
Inductive call : Type :=
| get_latest
| get_by_id (id_ : Z)
| get_all
| update (id_ : Z) (name schema form render : json)
| props_get_records
| props_get_record (property_id : Z)
| props_create (property_id : Z) (name schema form_single form_array : json)
| mapping_create (item_type_id : json) (mapping : json)
| mapping_get_record (item_type_id : Z)
| commit
| rollback.

(** What a request leaves behind, oldest first: a line of the debug log,
    or a call with the exception it raised, if any. *)
Inductive event : Type :=
| ev_debug (what : logged)
| ev_call (c : call) (raised : option exn).


Definition raised_of {A : Type} (r : result A) : option exn :=
  match r with
  | Ok _ => None
  | Raise e => Some e
  end.

(** The per-request context: [current_permission_factory] ([None], or a
    factory whose [permission().can()] gives the verdict) and
    [current_user.is_authenticated]. *)
Record context : Type := mkContext {
  current_permission_factory : option bool;
  is_authenticated : bool
}.

(** ** Collaborators *)

(** A write of the data layer works on the session: it may change it and
    may raise, and the state it leaves behind is the session's either way.
    [commit_error] tells whether flushing a session fails; a failed commit
    leaves the database as it was. *)
Class Collaborators (db : Type) : Type := {
  ItemTypes_get_latest : db -> list ItemType;
  ItemTypes_get_by_id : Z -> db -> option ItemType;
  ItemTypes_get_all : db -> option (list ItemType);
  ItemTypes_update :
    Z -> json -> json -> json -> json -> db -> result ItemTypeRecord * db;
  ItemTypeProps_get_records : db -> list ItemTypeProperty;
  ItemTypeProps_get_record : Z -> db -> option ItemTypeProperty;
  ItemTypeProps_create : Z -> json -> json -> json -> json -> db -> result unit * db;
  Mapping_create : json -> json -> db -> result unit * db;
  Mapping_get_record : Z -> db -> json;
  commit_error : db -> option exn;
  json_loads_str : string -> result json;   (* json.loads on a str *)
  json_dumps_indent4 : json -> string;      (* json.dumps(_, indent=4, ensure_ascii=False) *)
  gettext : string -> string;               (* flask_babelex's gettext, _ *)
  config : string -> string                 (* current_app.config[_] *)
}.

(** ** The monad of the views *)

Section Views.

Context {db : Type} `{C : Collaborators db}.

Record world : Type := mkWorld {
  committed : db;            (* what the database holds *)
  session : db;              (* what the open transaction sees *)
  trace : list event
}.

Definition M (A : Type) : Type := world -> result A * world.

Definition ret {A : Type} (a : A) : M A := fun w => (Ok a, w).

Definition raise {A : Type} (e : exn) : M A := fun w => (Raise e, w).

Definition bind {A B : Type} (m : M A) (k : A -> M B) : M B :=
  fun w =>
    match m w with
    | (Ok a, w') => k a w'
    | (Raise e, w') => (Raise e, w')
    end.

Definition lift {A : Type} (r : result A) : M A := fun w => (r, w).

(** [try: body / except: handler] (a bare [except] catches everything). *)
Definition try_except {A : Type} (body : M A) (handler : M A) : M A :=
  fun w =>
    match body w with
    | (Ok a, w') => (Ok a, w')
    | (Raise _, w') => handler w'
    end.

(** [try: body / except Exception as ex: handler ex]. *)
Definition try_except_Exception {A : Type} (body : M A) (handler : exn -> M A)
  : M A :=
  fun w =>
    match body w with
    | (Ok a, w') => (Ok a, w')
    | (Raise e, w') => if is_Exception e then handler e w' else (Raise e, w')
    end.

Definition emit (e : event) : M unit :=
  fun w => (Ok tt, mkWorld (committed w) (session w) (trace w ++ [e])).

(** A read of the data layer: sees the session. *)
Definition query {A : Type} (c : call) (f : db -> A) : M A :=
  fun w =>
    (Ok (f (session w)),
     mkWorld (committed w) (session w) (trace w ++ [ev_call c None])).

(** A write of the data layer: works on the session. *)
Definition mutate {A : Type} (c : call) (f : db -> result A * db) : M A :=
  fun w =>
    let (r, s') := f (session w) in
    (r, mkWorld (committed w) s' (trace w ++ [ev_call c (raised_of r)])).

(** [db.session.commit()]: the session becomes the database, unless the
    flush fails. *)
Definition db_session_commit : M unit :=
  fun w =>
    match commit_error (session w) with
    | Some e =>
        (Raise e,
         mkWorld (committed w) (session w) (trace w ++ [ev_call commit (Some e)]))
    | None =>
        (Ok tt, mkWorld (session w) (session w) (trace w ++ [ev_call commit None]))
    end.

(** [db.session.rollback()]: the session is the database again. *)
Definition db_session_rollback : M unit :=
  fun w =>
    (Ok tt,
     mkWorld (committed w) (committed w) (trace w ++ [ev_call rollback None])).

(** [current_app.logger.debug(_)] *)
Definition logger_debug (what : logged) : M unit := emit (ev_debug what).

(** [abort(code)] and [abort(code, description)] *)
Definition abort {A : Type} (code : Z) (description : option string) : M A :=
  raise (HTTPException code description).

(** [json.loads(v)]: a [str] is parsed, any other JSON value is a
    [TypeError]. *)
Definition json_loads (v : json) : result json :=
  match v with
  | JStr s => json_loads_str s
  | _ => Raise TypeError
  end.

(** [request.headers['Content-Type']]: werkzeug reads
    [environ['CONTENT_TYPE']], a [KeyError] on that key when the environ
    does not have it. *)
Definition headers_Content_Type (req : request) : M string :=
  match req_content_type req with
  | Some ct => ret ct
  | None => raise (KeyError "CONTENT_TYPE")
  end.

(** [request.get_json()], reached only when the content type is
    [application/json]. *)
Definition get_json (req : request) : M json :=
  match json_loads_str (req_body req) with
  | Ok j => ret j
  | Raise _ => abort 400 None
  end.

End Views.

Arguments world db : clear implicits.
Arguments M db A : clear implicits.

Declare Scope views_scope.
Delimit Scope views_scope with views.
Notation "x <- m ;; k" := (bind m (fun x => k))
  (at level 61, m at next level, right associativity) : views_scope.
Notation "m ;;; k" := (bind m (fun _ => k))
  (at level 61, right associativity) : views_scope.

(** ** The views *)

Section Handlers.

Context {db : Type} `{C : Collaborators db}.

Local Open Scope views_scope.

(** [jsonify(msg=_(text))] *)
Definition jsonify_msg (text : string) : response :=
  jsonify (JDict [("msg", JStr (gettext text))]).

Definition check_permission (ctx : context) (permission : option bool)
    (hidden : bool) : M db unit :=
  match permission with
  | Some can =>
      if negb can then
        if hidden then abort 404 None
        else
          if is_authenticated ctx
          then abort 403 (Some "You do not have a permission for itemtype")
          else abort 401 None
      else ret tt
  | None => ret tt
  end.

(** The decorator: [check_permission(current_permission_factory,
    hidden=hidden)], then the view. *)
Definition need_permissions {A : Type} (ctx : context) (hidden : bool)
    (f : M db A) : M db A :=
  check_permission ctx (current_permission_factory ctx) hidden ;;; f.

(** [@need_permissions()]: [hidden] takes its default, [False]. *)
Definition hidden_default : bool := false.

Definition index (ctx : context) (item_type_id : Z) : M db response :=
  need_permissions ctx hidden_default (
    lists <- query get_latest ItemTypes_get_latest ;;
    ret (render_template (config "WEKO_ITEMTYPES_UI_REGISTER_TEMPLATE")
           [("lists", TItemTypes lists); ("id", TInt item_type_id)])).

(** The dict literal of [render]. *)
Definition empty_shape : json :=
  JDict [("table_row", JList []);
         ("table_row_map", JDict []);
         ("meta_list", JDict []);
         ("schemaeditor", JDict [("schema", JDict [])])].

Definition render (ctx : context) (item_type_id : Z) : M db response :=
  need_permissions ctx hidden_default (
    result <- (if item_type_id >? 0
               then query (get_by_id item_type_id)
                          (ItemTypes_get_by_id item_type_id)
               else ret None) ;;
    let result := match result with
                  | Some it => OItemType it
                  | None => OJson empty_shape
                  end in
    r <- lift (getattr result attr_render) ;;
    ret (jsonify r)).

(** [data.get('table_row_map').get(k)] *)
Definition table_row_map_get (data : json) (k : string) : M db json :=
  trm <- lift (py_get data "table_row_map") ;;
  lift (py_get trm k).

Definition register (req : request) (item_type_id : Z) : M db response :=
  ct <- headers_Content_Type req ;;
  if negb (String.eqb ct "application/json") then
    ct <- headers_Content_Type req ;;
    logger_debug (LStr ct) ;;;
    ret (jsonify_msg "Header Error")
  else
    data <- get_json req ;;
    r <- try_except
           (name <- table_row_map_get data "name" ;;
            schema <- table_row_map_get data "schema" ;;
            form <- table_row_map_get data "form" ;;
            record <- mutate (update item_type_id name schema form data)
                        (ItemTypes_update item_type_id name schema form data) ;;
            let item_type_id :=
              if item_type_id =? 0 then it_id (model record) else item_type_id in
            mapping <- table_row_map_get data "mapping" ;;
            mutate (mapping_create (JInt item_type_id) mapping)
              (Mapping_create (JInt item_type_id) mapping) ;;;
            db_session_commit ;;;
            ret (inr item_type_id))
           (db_session_rollback ;;;
            ret (inl (jsonify_msg "Fail"))) ;;
    match r with
    | inl early => ret early
    | inr item_type_id =>
        logger_debug (LStr ("itemtype register: " ++ str_of_int item_type_id)) ;;;
        ret (jsonify_msg "Success")
    end.

Definition custom_property (ctx : context) : M db response :=
  need_permissions ctx hidden_default (
    lists <- query props_get_records ItemTypeProps_get_records ;;
    ret (render_template (config "WEKO_ITEMTYPES_UI_CREATE_PROPERTY")
           [("lists", TProperties lists)])).

(** The body of the loop of [get_property_list]: [lists[k.id] = tmp].
    [jsonify] writes an [int] key as its decimal string. *)
Definition property_entry (lists : list (string * json)) (k : ItemTypeProperty)
  : list (string * json) :=
  let tmp := [("name", prop_name k); ("schema", prop_schema k);
              ("form", prop_form k); ("forms", prop_forms k)] in
  assoc_set (str_of_int (prop_id k)) (JDict tmp) lists.

Definition get_property_list (ctx : context) : M db response :=
  need_permissions ctx hidden_default (
    props <- query props_get_records ItemTypeProps_get_records ;;
    let lists := fold_left property_entry props [] in
    ret (jsonify (JDict lists))).

Definition get_property (ctx : context) (property_id : Z) : M db response :=
  need_permissions ctx hidden_default (
    prop <- query (props_get_record property_id)
              (ItemTypeProps_get_record property_id) ;;
    let prop := match prop with Some p => OProperty p | None => ONone end in
    id <- lift (getattr prop attr_id) ;;
    name <- lift (getattr prop attr_name) ;;
    schema <- lift (getattr prop attr_schema) ;;
    form <- lift (getattr prop attr_form) ;;
    forms <- lift (getattr prop attr_forms) ;;
    ret (jsonify (JDict [("id", id); ("name", name); ("schema", schema);
                         ("form", form); ("forms", forms)]))).

Definition custom_property_new (req : request) (property_id : Z) : M db response :=
  ct <- headers_Content_Type req ;;
  if negb (String.eqb ct "application/json") then
    ct <- headers_Content_Type req ;;
    logger_debug (LStr ct) ;;;
    ret (jsonify_msg "Header Error")
  else
    data <- get_json req ;;
    r <- try_except_Exception
           (name <- lift (py_get data "name") ;;
            schema <- lift (py_get data "schema") ;;
            form_single <- lift (py_get data "form1") ;;
            form_array <- lift (py_get data "form2") ;;
            mutate (props_create property_id name schema form_single form_array)
              (ItemTypeProps_create property_id name schema form_single form_array) ;;;
            db_session_commit ;;;
            ret None)
           (fun ex =>
              logger_debug (LExn ex) ;;;
              db_session_rollback ;;;
              ret (Some (jsonify_msg "Fail"))) ;;
    match r with
    | Some early => ret early
    | None => ret (jsonify_msg "Success")
    end.

(** [url_for('.mapping_index', ItemTypeID=n)] *)
Definition url_for_mapping_index (n : Z) : string :=
  "/itemtypes/mapping/" ++ str_of_int n.

Definition mapping_index (ItemTypeID : Z) : M db response :=
  lists <- query get_all ItemTypes_get_all ;;
  match lists with
  | None | Some [] =>
      ret (render_template (config "WEKO_ITEMTYPES_UI_ERROR_TEMPLATE") [])
  | Some ((first :: _) as all) =>
      item_type <- query (get_by_id ItemTypeID) (ItemTypes_get_by_id ItemTypeID) ;;
      match item_type with
      | None => ret (redirect (url_for_mapping_index (it_id first)))
      | Some _ =>
          item_type_mapping <- query (mapping_get_record ItemTypeID)
                                 (Mapping_get_record ItemTypeID) ;;
          let mapping := json_dumps_indent4 item_type_mapping in
          logger_debug (LStr mapping) ;;;
          ret (render_template (config "WEKO_ITEMTYPES_UI_MAPPING_TEMPLATE")
                 [("lists", TItemTypes all); ("mapping", TStr mapping);
                  ("id", TInt ItemTypeID)])
      end
  end.

Definition mapping_register (req : request) : M db response :=
  ct <- headers_Content_Type req ;;
  if negb (String.eqb ct "application/json") then
    ct <- headers_Content_Type req ;;
    logger_debug (LStr ct) ;;;
    ret (jsonify_msg "Header Error")
  else
    data <- get_json req ;;
    logger_debug (LJson data) ;;;
    r <- try_except
           (item_type_id <- lift (py_get data "item_type_id") ;;
            encoded <- lift (py_get data "mapping") ;;
            mapping <- lift (json_loads encoded) ;;
            mutate (mapping_create item_type_id mapping)
              (Mapping_create item_type_id mapping) ;;;
            db_session_commit ;;;
            ret None)
           (db_session_rollback ;;;
            ret (Some (jsonify_msg "Fail"))) ;;
    match r with
    | Some early => ret early
    | None => ret (jsonify_msg "Success")
    end.

End Handlers.

(** ** The URL map of the blueprint *)

Definition is_digit (c : ascii) : bool :=
  let n := Z.of_nat (nat_of_ascii c) in (48 <=? n) && (n <=? 57).

Fixpoint digits_value (s : string) (acc : Z) : option Z :=
  match s with
  | EmptyString => Some acc
  | String c rest =>
      if is_digit c
      then digits_value rest (10 * acc + (Z.of_nat (nat_of_ascii c) - 48))
      else None
  end.

(** The converter [<int:_>]: one digit or more. *)
Definition int_converter (s : string) : option Z :=
  match s with
  | EmptyString => None
  | _ => digits_value s 0
  end.

(** A view function with the arguments the rule binds. *)
Inductive endpoint : Type :=
| ep_index (item_type_id : Z)
| ep_render (item_type_id : Z)
| ep_register (item_type_id : Z)
| ep_custom_property
| ep_get_property_list
| ep_get_property (property_id : Z)
| ep_custom_property_new (property_id : Z)
| ep_mapping_index (ItemTypeID : Z)
| ep_mapping_register.

(** The rules of the [@blueprint.route] decorators; an argument a rule
    does not bind takes the default of the function's signature. *)
Definition url_map (m : method) (path : list string) : option endpoint :=
  match m, path with
  | GET, [] => Some (ep_index 0)
  | GET, [a] =>
      if String.eqb a "register" then Some (ep_index 0)
      else if String.eqb a "property" then Some ep_custom_property
      else if String.eqb a "mapping" then Some (ep_mapping_index 0)
      else option_map ep_index (int_converter a)
  | GET, [a; b] =>
      if String.eqb a "property" then
        if String.eqb b "list" then Some ep_get_property_list
        else option_map ep_get_property (int_converter b)
      else if String.eqb a "mapping" then option_map ep_mapping_index (int_converter b)
      else if String.eqb b "render" then option_map ep_render (int_converter a)
      else None
  | POST, [a] =>
      if String.eqb a "register" then Some (ep_register 0)
      else if String.eqb a "property" then Some (ep_custom_property_new 0)
      else if String.eqb a "mapping" then Some ep_mapping_register
      else None
  | POST, [a; b] =>
      if String.eqb a "property" then option_map ep_custom_property_new (int_converter b)
      else if String.eqb b "register" then option_map ep_register (int_converter a)
      else None
  | _, _ => None
  end.

Definition other_method (m : method) : method :=
  match m with GET => POST | POST => GET end.

(** The views that carry [@need_permissions()]. *)
Definition permission_gated (e : endpoint) : bool :=
  match e with
  | ep_index _ | ep_render _ | ep_custom_property | ep_get_property_list
  | ep_get_property _ => true
  | ep_register _ | ep_custom_property_new _ | ep_mapping_index _
  | ep_mapping_register => false
  end.

(** The views that write. *)
Definition is_write_endpoint (e : endpoint) : bool :=
  match e with
  | ep_register _ | ep_custom_property_new _ | ep_mapping_register => true
  | _ => false
  end.

Section Dispatch.

Context {db : Type} `{C : Collaborators db}.

Definition view (ctx : context) (req : request) (e : endpoint) : M db response :=
  match e with
  | ep_index n => index ctx n
  | ep_render n => render ctx n
  | ep_register n => register req n
  | ep_custom_property => custom_property ctx
  | ep_get_property_list => get_property_list ctx
  | ep_get_property n => get_property ctx n
  | ep_custom_property_new n => custom_property_new req n
  | ep_mapping_index n => mapping_index n
  | ep_mapping_register => mapping_register req
  end.

(** 404 when no rule matches the path, 405 when one does for the other
    method only. *)
Definition dispatch_request (ctx : context) (req : request) : M db response :=
  match url_map (req_method req) (req_path req) with
  | Some e => view ctx req e
  | None =>
      match url_map (other_method (req_method req)) (req_path req) with
      | Some _ => abort 405 None
      | None => abort 404 None
      end
  end.

End Dispatch.

(** ** An instance to run the views on *)

Module Memory.

(** *** A reader and a writer for JSON

    The fragment of [json.loads] and [json.dumps] that the type [json]
    holds: numbers are integers (a fraction, an exponent, [NaN] and
    [Infinity] are refused), and a [\u] escape names a code point outside
    the surrogates, written out in UTF-8. *)

Definition dquote : ascii := ascii_of_nat 34.
Definition backslash : ascii := ascii_of_nat 92.
Definition newline : ascii := ascii_of_nat 10.

(** Writes the double quote of a text as an apostrophe: [dq "{'a':1}"] is
    the text [{"a":1}]. *)
Fixpoint dq (s : string) : string :=
  match s with
  | EmptyString => EmptyString
  | String c rest =>
      String (if Ascii.eqb c "'"%char then dquote else c) (dq rest)
  end.

Definition is_ws (c : ascii) : bool :=
  let n := nat_of_ascii c in
  (Nat.eqb n 32 || Nat.eqb n 9 || Nat.eqb n 10 || Nat.eqb n 13)%bool.

Fixpoint skip_ws (s : string) : string :=
  match s with
  | String c rest => if is_ws c then skip_ws rest else s
  | EmptyString => s
  end.

Definition hex_value (c : ascii) : option Z :=
  let n := Z.of_nat (nat_of_ascii c) in
  if (48 <=? n) && (n <=? 57) then Some (n - 48)
  else if (97 <=? n) && (n <=? 102) then Some (n - 87)
  else if (65 <=? n) && (n <=? 70) then Some (n - 55)
  else None.

Definition byte (n : Z) : ascii := ascii_of_nat (Z.to_nat n).

(** The UTF-8 encoding of a code point of the basic plane. *)
Definition utf8 (cp : Z) : option string :=
  if cp <? 128 then Some (String (byte cp) "")
  else if cp <? 2048 then
    Some (String (byte (192 + cp / 64)) (String (byte (128 + cp mod 64)) ""))
  else if (55296 <=? cp) && (cp <=? 57343) then None
  else
    Some (String (byte (224 + cp / 4096))
            (String (byte (128 + (cp / 64) mod 64))
               (String (byte (128 + cp mod 64)) ""))).

Definition unescape (c : ascii) : option ascii :=
  if Ascii.eqb c dquote then Some dquote
  else if Ascii.eqb c backslash then Some backslash
  else if Ascii.eqb c "/"%char then Some "/"%char
  else if Ascii.eqb c "b"%char then Some (ascii_of_nat 8)
  else if Ascii.eqb c "f"%char then Some (ascii_of_nat 12)
  else if Ascii.eqb c "n"%char then Some newline
  else if Ascii.eqb c "r"%char then Some (ascii_of_nat 13)
  else if Ascii.eqb c "t"%char then Some (ascii_of_nat 9)
  else None.

(** The rest of a string literal, after its opening quote. *)
Fixpoint scan_string (s : string) (acc : string) : option (string * string) :=
  match s with
  | EmptyString => None
  | String c rest =>
      if Ascii.eqb c dquote then Some (acc, rest)
      else if Ascii.eqb c backslash then
        match rest with
        | String e rest1 =>
            if Ascii.eqb e "u"%char then
              match rest1 with
              | String h1 (String h2 (String h3 (String h4 rest2))) =>
                  match hex_value h1, hex_value h2, hex_value h3, hex_value h4 with
                  | Some a, Some b, Some c', Some d =>
                      match utf8 (4096 * a + 256 * b + 16 * c' + d) with
                      | Some bytes => scan_string rest2 (acc ++ bytes)
                      | None => None
                      end
                  | _, _, _, _ => None
                  end
              | _ => None
              end
            else
              match unescape e with
              | Some x => scan_string rest1 (acc ++ String x "")
              | None => None
              end
        | EmptyString => None
        end
      else if Nat.ltb (nat_of_ascii c) 32 then None
      else scan_string rest (acc ++ String c "")
  end.

Fixpoint scan_digits (s : string) (acc : Z) : Z * string :=
  match s with
  | String c rest =>
      if is_digit c
      then scan_digits rest (10 * acc + (Z.of_nat (nat_of_ascii c) - 48))
      else (acc, s)
  | EmptyString => (acc, s)
  end.

Definition starts_fraction (s : string) : bool :=
  match s with
  | String c _ =>
      (Ascii.eqb c "."%char || Ascii.eqb c "e"%char || Ascii.eqb c "E"%char)%bool
  | EmptyString => false
  end.

(** [0], or a digit from 1 to 9 and more digits. *)
Definition scan_natural (s : string) : option (Z * string) :=
  match s with
  | String c rest =>
      if Ascii.eqb c "0"%char then
        if starts_fraction rest then None else Some (0, rest)
      else if is_digit c then
        let (n, rest') := scan_digits s 0 in
        if starts_fraction rest' then None else Some (n, rest')
      else None
  | EmptyString => None
  end.

Definition scan_int (s : string) : option (json * string) :=
  match s with
  | String c rest =>
      if Ascii.eqb c "-"%char then
        match scan_natural rest with
        | Some (n, rest') => Some (JInt (- n), rest')
        | None => None
        end
      else
        match scan_natural s with
        | Some (n, rest') => Some (JInt n, rest')
        | None => None
        end
  | EmptyString => None
  end.

(** Drops a literal from the front of a text. *)
Fixpoint expect (lit s : string) : option string :=
  match lit, s with
  | EmptyString, _ => Some s
  | String a lit', String b s' => if Ascii.eqb a b then expect lit' s' else None
  | String _ _, EmptyString => None
  end.

(** A value at the front of [s] (no blank before it), members of an object
    after its brace or a comma, items of an array likewise.  A key given
    twice keeps its last value. *)
Fixpoint parse_value (fuel : nat) (s : string) {struct fuel}
  : option (json * string) :=
  match fuel with
  | O => None
  | S fuel' =>
      match s with
      | EmptyString => None
      | String c rest =>
          if Ascii.eqb c "{"%char then
            match skip_ws rest with
            | String c1 rest1 =>
                if Ascii.eqb c1 "}"%char then Some (JDict [], rest1)
                else parse_members fuel' (String c1 rest1) []
            | EmptyString => None
            end
          else if Ascii.eqb c "["%char then
            match skip_ws rest with
            | String c1 rest1 =>
                if Ascii.eqb c1 "]"%char then Some (JList [], rest1)
                else parse_items fuel' (String c1 rest1) []
            | EmptyString => None
            end
          else if Ascii.eqb c dquote then
            match scan_string rest "" with
            | Some (str, rest1) => Some (JStr str, rest1)
            | None => None
            end
          else if Ascii.eqb c "n"%char then
            option_map (fun r => (JNull, r)) (expect "null" s)
          else if Ascii.eqb c "t"%char then
            option_map (fun r => (JBool true, r)) (expect "true" s)
          else if Ascii.eqb c "f"%char then
            option_map (fun r => (JBool false, r)) (expect "false" s)
          else scan_int s
      end
  end
with parse_members (fuel : nat) (s : string) (acc : list (string * json))
       {struct fuel} : option (json * string) :=
  match fuel with
  | O => None
  | S fuel' =>
      match s with
      | String c rest =>
          if Ascii.eqb c dquote then
            match scan_string rest "" with
            | Some (k, rest1) =>
                match skip_ws rest1 with
                | String c2 rest2 =>
                    if Ascii.eqb c2 ":"%char then
                      match parse_value fuel' (skip_ws rest2) with
                      | Some (v, rest3) =>
                          match skip_ws rest3 with
                          | String c4 rest4 =>
                              if Ascii.eqb c4 ","%char
                              then parse_members fuel' (skip_ws rest4) (assoc_set k v acc)
                              else if Ascii.eqb c4 "}"%char
                              then Some (JDict (assoc_set k v acc), rest4)
                              else None
                          | EmptyString => None
                          end
                      | None => None
                      end
                    else None
                | EmptyString => None
                end
            | None => None
            end
          else None
      | EmptyString => None
      end
  end
with parse_items (fuel : nat) (s : string) (acc : list json)
       {struct fuel} : option (json * string) :=
  match fuel with
  | O => None
  | S fuel' =>
      match parse_value fuel' s with
      | Some (v, rest1) =>
          match skip_ws rest1 with
          | String c2 rest2 =>
              if Ascii.eqb c2 ","%char
              then parse_items fuel' (skip_ws rest2) (acc ++ [v])
              else if Ascii.eqb c2 "]"%char
              then Some (JList (acc ++ [v]), rest2)
              else None
          | EmptyString => None
          end
      | None => None
      end
  end.

(** [json.loads(s)] on a [str]: one value between blanks and nothing
    else.  Each call of the parser takes a character, so the length of
    the text bounds their number. *)
Definition loads (s : string) : result json :=
  match parse_value (2 * String.length s + 2) (skip_ws s) with
  | Some (v, rest) =>
      match skip_ws rest with
      | EmptyString => Ok v
      | String _ _ => Raise JSONDecodeError
      end
  | None => Raise JSONDecodeError
  end.

Definition hex_digit (n : Z) : ascii :=
  if n <? 10 then byte (48 + n) else byte (87 + n).

(** How [json.dumps] writes a character of a string when [ensure_ascii]
    is off: the quote, the backslash and the control characters are
    escaped, everything else is kept. *)
Definition escape (c : ascii) : string :=
  let n := Z.of_nat (nat_of_ascii c) in
  if Ascii.eqb c dquote then String backslash (String dquote "")
  else if Ascii.eqb c backslash then String backslash (String backslash "")
  else if n =? 10 then String backslash "n"
  else if n =? 13 then String backslash "r"
  else if n =? 9 then String backslash "t"
  else if n =? 8 then String backslash "b"
  else if n =? 12 then String backslash "f"
  else if n <? 32 then
    String backslash ("u00" ++ String (hex_digit (n / 16)) (String (hex_digit (n mod 16)) ""))
  else String c "".

Fixpoint escape_all (s : string) : string :=
  match s with
  | EmptyString => EmptyString
  | String c rest => escape c ++ escape_all rest
  end.

Definition quoted (s : string) : string :=
  String dquote (escape_all s ++ String dquote "").

Fixpoint spaces (n : nat) : string :=
  match n with
  | O => EmptyString
  | S n' => String " "%char (spaces n')
  end.

(** A line break and the indentation of a nesting level. *)
Definition break (level : nat) : string :=
  String newline (spaces (4 * level)).

(** [json.dumps(j, indent=4, ensure_ascii=False)], from nesting level
    [level]. *)
Fixpoint dumps_from (level : nat) (j : json) {struct j} : string :=
  match j with
  | JNull => "null"
  | JBool true => "true"
  | JBool false => "false"
  | JInt n => str_of_int n
  | JStr s => quoted s
  | JList [] => "[]"
  | JList (x :: xs) =>
      ("[" ++ break (S level) ++ dumps_from (S level) x
       ++ (fix more (l : list json) : string :=
             match l with
             | [] => EmptyString
             | y :: l' =>
                 ("," ++ break (S level) ++ dumps_from (S level) y ++ more l')%string
             end) xs
       ++ break level ++ "]")%string
  | JDict [] => "{}"
  | JDict ((k, v) :: kvs) =>
      ("{" ++ break (S level) ++ quoted k ++ ": " ++ dumps_from (S level) v
       ++ (fix more (l : list (string * json)) : string :=
             match l with
             | [] => EmptyString
             | (k', v') :: l' =>
                 ("," ++ break (S level) ++ quoted k' ++ ": "
                  ++ dumps_from (S level) v' ++ more l')%string
             end) kvs
       ++ break level ++ "}")%string
  end.

Definition dumps_indent4 (j : json) : string := dumps_from 0 j.

(** *** A store with planted faults *)

Inductive fault_point : Type :=
| at_update | at_props_create | at_mapping_create | at_commit.

Definition fault_point_eqb (a b : fault_point) : bool :=
  match a, b with
  | at_update, at_update | at_props_create, at_props_create
  | at_mapping_create, at_mapping_create | at_commit, at_commit => true
  | _, _ => false
  end.

Record store : Type := mkStore {
  item_types : list ItemType;
  item_type_names : list (Z * json);
  properties : list ItemTypeProperty;
  mappings : list (Z * json);
  faults : list (fault_point * exn)
}.

Fixpoint planted (p : fault_point) (fs : list (fault_point * exn)) : option exn :=
  match fs with
  | [] => None
  | (q, e) :: rest => if fault_point_eqb p q then Some e else planted p rest
  end.

Definition find_item_type (n : Z) (s : store) : option ItemType :=
  find (fun it => it_id it =? n) (item_types s).

Definition find_property (n : Z) (s : store) : option ItemTypeProperty :=
  find (fun p => prop_id p =? n) (properties s).

Fixpoint lookup_Z {A : Type} (n : Z) (l : list (Z * A)) : option A :=
  match l with
  | [] => None
  | (m, a) :: rest => if m =? n then Some a else lookup_Z n rest
  end.

Definition next_id (s : store) : Z :=
  1 + fold_right Z.max 0 (map it_id (item_types s)).

Definition with_item_type (it : ItemType) (name : json) (s : store) : store :=
  mkStore (filter (fun x => negb (it_id x =? it_id it)) (item_types s) ++ [it])
          ((it_id it, name) :: item_type_names s)
          (properties s) (mappings s) (faults s).

(** [id_ = 0] creates under a fresh id; another id must exist. *)
Definition store_update (id_ : Z) (name schema form render : json) (s : store)
  : result ItemTypeRecord * store :=
  match planted at_update (faults s) with
  | Some e => (Raise e, s)
  | None =>
      if id_ =? 0 then
        let it := mkItemType (next_id s) schema form render in
        (Ok (mkItemTypeRecord it), with_item_type it name s)
      else
        match find_item_type id_ s with
        | Some _ =>
            let it := mkItemType id_ schema form render in
            (Ok (mkItemTypeRecord it), with_item_type it name s)
        | None => (Raise (Error "NoResultFound"), s)
        end
  end.

Definition store_props_create (property_id : Z)
    (name schema form_single form_array : json) (s : store) : result unit * store :=
  match planted at_props_create (faults s) with
  | Some e => (Raise e, s)
  | None =>
      let p := mkItemTypeProperty property_id name schema form_single form_array in
      (Ok tt,
       mkStore (item_types s) (item_type_names s)
               (filter (fun x => negb (prop_id x =? property_id)) (properties s) ++ [p])
               (mappings s) (faults s))
  end.

(** The mapping is written first; a planted fault then raises, leaving
    the session dirty. *)
Definition store_mapping_create (item_type_id mapping : json) (s : store)
  : result unit * store :=
  match item_type_id with
  | JInt n =>
      let s' := mkStore (item_types s) (item_type_names s) (properties s)
                        ((n, mapping) :: mappings s) (faults s) in
      match planted at_mapping_create (faults s) with
      | Some e => (Raise e, s')
      | None => (Ok tt, s')
      end
  | _ => (Raise (Error "IntegrityError"), s)
  end.

Definition store_mapping_get_record (n : Z) (s : store) : json :=
  match lookup_Z n (mappings s) with
  | Some m => m
  | None => JNull
  end.

#[global] Instance collaborators : Collaborators store := {
  ItemTypes_get_latest := fun s => rev (item_types s);
  ItemTypes_get_by_id := find_item_type;
  ItemTypes_get_all := fun s => Some (item_types s);
  ItemTypes_update := store_update;
  ItemTypeProps_get_records := properties;
  ItemTypeProps_get_record := find_property;
  ItemTypeProps_create := store_props_create;
  Mapping_create := store_mapping_create;
  Mapping_get_record := store_mapping_get_record;
  commit_error := fun s => planted at_commit (faults s);
  json_loads_str := loads;
  json_dumps_indent4 := dumps_indent4;
  gettext := fun s => s;
  config := fun key => key
}.

Definition empty_store : store := mkStore [] [] [] [] [].

(** A world whose session is clean. *)
Definition fresh (s : store) : world store := mkWorld s s [].

Definition json_request (m : method) (path : list string) (body : string)
  : request :=
  mkRequest m path (Some "application/json") body.

Definition admin : context := mkContext (Some true) true.
Definition member : context := mkContext (Some false) true.
Definition anonymous : context := mkContext (Some false) false.

(** *** Sample stores and requests *)

Definition article : ItemType :=
  mkItemType 1 (JDict [("type", JStr "object")]) (JList [])
             (JDict [("table_row", JList [JStr "title"])]).

Definition thesis : ItemType :=
  mkItemType 2 (JDict []) (JList []) (JDict [("table_row", JList [])]).

(** Two item types, the second with a mapping. *)
Definition library : store :=
  mkStore [article; thesis] [(1, JStr "Article"); (2, JStr "Thesis")] []
          [(2, JDict [("title", JDict [("jpcoar", JStr "dc:title")])])] [].

Definition store_failing (p : fault_point) (e : exn) : store :=
  mkStore [] [] [] [] [(p, e)].

(** The body of the example of the specification for [POST /mapping]. *)
Definition mapping_body : string :=
  dq "{'item_type_id':5,'mapping':'{\'a\':1}'}".

Definition register_body : string :=
  dq "{'table_row_map': {'name': 'Article', 'schema': {}, 'form': [], 'mapping': {'title': 1}}}".

Definition register_data : json :=
  JDict [("table_row_map",
          JDict [("name", JStr "Article"); ("schema", JDict []);
                 ("form", JList []); ("mapping", JDict [("title", JInt 1)])])].

Definition property_body : string :=
  dq "{'name': 'Title', 'schema': {}, 'form1': {}, 'form2': []}".

Definition property_data : json :=
  JDict [("name", JStr "Title"); ("schema", JDict []); ("form1", JDict []);
         ("form2", JList [])].

Definition register_request : request :=
  json_request POST ["register"] register_body.

Definition property_request : request :=
  json_request POST ["property"; "4"] property_body.

Definition mapping_request : request :=
  json_request POST ["mapping"] mapping_body.


(** Bodies that lack the key the view needs. *)
Definition keyless_request : request :=
  json_request POST ["register"] (dq "{'name': 'Article'}").

Definition unencoded_request : request :=
  json_request POST ["mapping"] (dq "{'item_type_id': 5, 'mapping': {'a': 1}}").

(** More sample stores and requests. *)

Definition title_property : ItemTypeProperty :=
  mkItemTypeProperty 4 (JStr "Title") (JDict [("type", JStr "string")])
                     (JDict [("key", JStr "title")]) (JList []).

Definition creator_property : ItemTypeProperty :=
  mkItemTypeProperty 9 (JStr "Creator") (JDict []) (JDict []) (JList []).

(** The library with two properties. *)
Definition catalogue : store :=
  mkStore [article; thesis] [(1, JStr "Article"); (2, JStr "Thesis")]
          [title_property; creator_property]
          [(2, JDict [("title", JDict [("jpcoar", JStr "dc:title")])])] [].

(** The permission factory allows a caller who is not logged in. *)
Definition guest : context := mkContext (Some true) false.

Definition get_request (path : list string) : request :=
  mkRequest GET path None "".

(** An update of the item type 2. *)
Definition update_request : request :=
  json_request POST ["2"; "register"] register_body.

(** Bodies that are JSON but no object, an empty object, no JSON. *)
Definition array_request : request := json_request POST ["mapping"] "[]".

Definition empty_object_request : request :=
  json_request POST ["property"; "4"] "{}".

Definition truncated_request : request :=
  json_request POST ["register"] (dq "{'table_row_map': ").

(** A POST whose environ has no content type. *)
Definition bare_request : request := mkRequest POST ["register"] None "{}".

(** A mapping for the item type 2 of the library. *)
Definition thesis_mapping_request : request :=
  json_request POST ["mapping"] (dq "{'item_type_id':2,'mapping':'{\'a\':1}'}").

End Memory.

(** * Properties of the views *)

(** The permission check lets the request through. *)
Definition permitted (ctx : context) : bool :=
  match current_permission_factory ctx with
  | Some can => can
  | None => true
  end.

(** What [abort] raises when the check of [@need_permissions()] fails. *)
Definition denial (ctx : context) : exn :=
  if is_authenticated ctx
  then HTTPException 403 (Some "You do not have a permission for itemtype")
  else HTTPException 401 None.

(** The world after more entries of the trace. *)
Definition logging {db : Type} (w : world db) (entries : list event) : world db :=
  mkWorld (committed w) (session w) (trace w ++ entries).

(** The world after a rollback at the end of [entries]. *)
Definition rolled_back {db : Type} (w : world db) (entries : list event)
  : world db :=
  mkWorld (committed w) (committed w)
          (trace w ++ entries ++ [ev_call rollback None]).

(** The entries that a request starting in [w] and ending in [w'] adds
    to the trace. *)
Definition added {db : Type} (w w' : world db) : list event :=
  skipn (List.length (trace w)) (trace w').

(** The answer is [{msg: _('Fail')}], the session is rolled back onto a
    database that has not changed, and the rollback is the last thing the
    request did. *)
Definition failed_and_rolled_back {db : Type} `{Collaborators db}
    (w : world db) (out : result response * world db) : Prop :=
  fst out = Ok (jsonify (JDict [("msg", JStr (gettext "Fail"))])) /\
  committed (snd out) = committed w /\
  session (snd out) = committed w /\
  last (trace (snd out)) (ev_debug (LStr "")) = ev_call rollback None.

(** The calls that write: [ItemTypes.update], [ItemTypeProps.create],
    [Mapping.create], [commit] and [rollback]. *)
Definition is_write_call (c : call) : bool :=
  match c with
  | update _ _ _ _ _ | props_create _ _ _ _ _ | mapping_create _ _
  | commit | rollback => true
  | _ => false
  end.

(** The answer is [{msg: _('Success')}], after a commit that made the
    session the database; nothing was rolled back. *)
Definition succeeded_and_committed {db : Type} `{Collaborators db}
    (w : world db) (out : result response * world db) : Prop :=
  fst out = Ok (jsonify (JDict [("msg", JStr (gettext "Success"))])) /\
  committed (snd out) = session (snd out) /\
  In (ev_call commit None) (added w (snd out)) /\
  ~ In (ev_call rollback None) (added w (snd out)).

(** The URL of a path under the prefix of the blueprint. *)
Definition url_of_path (path : list string) : string :=
  ("/itemtypes"
   ++ String.concat "" (map (fun segment => ("/" ++ segment)%string) path))%string.

(** What [get_property_list] puts under the id of a property. *)
Definition property_fields (k : ItemTypeProperty) : json :=
  JDict [("name", prop_name k); ("schema", prop_schema k);
         ("form", prop_form k); ("forms", prop_forms k)].

Ltac unfold_monad :=
  unfold need_permissions, check_permission, table_row_map_get,
    headers_Content_Type, get_json, logger_debug, emit, query, mutate,
    db_session_commit, db_session_rollback, try_except, try_except_Exception,
    abort, raise, bind, ret, lift, jsonify_msg, logging, rolled_back in *.

(** Splits on the outcome of the next call to a collaborator. *)
Ltac case_call :=
  match goal with
  | |- context [py_get ?d ?k] => destruct (py_get d k) eqn:?
  | |- context [json_loads ?v] => destruct (json_loads v) eqn:?
  | |- context [ItemTypes_update ?a ?b ?c ?d ?e ?s] =>
      destruct (ItemTypes_update a b c d e s) as [[?|?] ?] eqn:?
  | |- context [ItemTypeProps_create ?a ?b ?c ?d ?e ?s] =>
      destruct (ItemTypeProps_create a b c d e s) as [[?|?] ?] eqn:?
  | |- context [Mapping_create ?a ?b ?s] =>
      destruct (Mapping_create a b s) as [[?|?] ?] eqn:?
  | |- context [commit_error ?s] => destruct (commit_error s) eqn:?
  | |- context [is_Exception ?e] => destruct (is_Exception e) eqn:?
  end.

Ltac unfold_views :=
  unfold dispatch_request, view, index, render, register, custom_property,
    get_property_list, get_property, custom_property_new, mapping_index,
    mapping_register in *;
  unfold_monad.

Section Properties.

Context {db : Type} `{C : Collaborators db}.

Implicit Types (ctx : context) (req : request) (w : world db) (n : Z).

Lemma skipn_length_app {A : Type} (l l' : list A) :
  skipn (List.length l) (l ++ l') = l'.
Proof. induction l; simpl; auto. Qed.

(** Spells out a membership in the entries added to a trace. *)
Ltac in_added H :=
  rewrite <- ?app_assoc in H;
  first [rewrite skipn_length_app in H | rewrite skipn_all in H]; simpl in H;
  repeat (destruct H as [H | H]); try contradiction; try discriminate H.

(** A request that passes the check reaches the view. *)
Lemma need_permissions_permitted {A : Type} ctx hidden (f : M db A) w :
  permitted ctx = true -> need_permissions ctx hidden f w = f w.
Proof.
  unfold permitted, need_permissions, check_permission, bind, ret.
  destruct (current_permission_factory ctx) as [[|]|]; intros H;
    try discriminate; reflexivity.
Qed.

(** A request that fails the check of [@need_permissions()] is aborted
    before the view runs. *)
Lemma need_permissions_denied {A : Type} ctx (f : M db A) w :
  current_permission_factory ctx = Some false ->
  need_permissions ctx hidden_default f w = (Raise (denial ctx), w).
Proof.
  intros H. unfold need_permissions, check_permission, hidden_default, denial,
    abort, raise, bind.
  rewrite H. simpl. destruct (is_authenticated ctx); reflexivity.
Qed.

(** [render] on an id for which it has no item type reads the attribute
    [render] of its own dict literal. *)
Lemma render_missing ctx n w :
  permitted ctx = true ->
  n = 0 \/ ItemTypes_get_by_id n (session w) = None ->
  render ctx n w =
    (Raise AttributeError,
     if n >? 0 then logging w [ev_call (get_by_id n) None] else w).
Proof.
  intros Hp Hn. unfold render. rewrite need_permissions_permitted by assumption.
  unfold_monad. destruct Hn as [-> | Hn].
  - reflexivity.
  - destruct (n >? 0); simpl; [rewrite Hn|]; reflexivity.
Qed.

Lemma get_property_missing ctx n w :
  permitted ctx = true ->
  ItemTypeProps_get_record n (session w) = None ->
  get_property ctx n w =
    (Raise AttributeError, logging w [ev_call (props_get_record n) None]).
Proof.
  intros Hp Hn. unfold get_property. rewrite need_permissions_permitted by assumption.
  unfold_monad. simpl. rewrite Hn. reflexivity.
Qed.

Lemma mapping_index_none n w :
  ItemTypes_get_all (session w) = None \/ ItemTypes_get_all (session w) = Some [] ->
  mapping_index n w =
    (Ok (render_template (config "WEKO_ITEMTYPES_UI_ERROR_TEMPLATE") []),
     logging w [ev_call get_all None]).
Proof.
  intros [H | H]; unfold mapping_index; unfold_monad; rewrite H; reflexivity.
Qed.

Lemma mapping_index_unknown n w first others :
  ItemTypes_get_all (session w) = Some (first :: others) ->
  ItemTypes_get_by_id n (session w) = None ->
  mapping_index n w =
    (Ok (redirect (url_for_mapping_index (it_id first))),
     logging w [ev_call get_all None; ev_call (get_by_id n) None]).
Proof.
  intros Hall Hid. unfold mapping_index; unfold_monad. rewrite Hall. simpl.
  rewrite Hid. rewrite <- app_assoc. reflexivity.
Qed.

Lemma mapping_index_known n w first others it :
  ItemTypes_get_all (session w) = Some (first :: others) ->
  ItemTypes_get_by_id n (session w) = Some it ->
  mapping_index n w =
    (Ok (render_template (config "WEKO_ITEMTYPES_UI_MAPPING_TEMPLATE")
           [("lists", TItemTypes (first :: others));
            ("mapping", TStr (json_dumps_indent4 (Mapping_get_record n (session w))));
            ("id", TInt n)]),
     logging w [ev_call get_all None; ev_call (get_by_id n) None;
                ev_call (mapping_get_record n) None;
                ev_debug (LStr (json_dumps_indent4
                                  (Mapping_get_record n (session w))))]).
Proof.
  intros Hall Hid. unfold mapping_index; unfold_monad. rewrite Hall. simpl.
  rewrite Hid. simpl. rewrite <- !app_assoc. reflexivity.
Qed.

(** C1.  [render] does not return the empty-shape document for the id 0
    or for an id without an item type: it builds the document, then reads
    the attribute [render] of that dict, which raises [AttributeError]
    (an HTTP 500), for every request that passes the permission check. *)
Theorem render_missing_raises ctx n w :
  permitted ctx = true ->
  n = 0 \/ ItemTypes_get_by_id n (session w) = None ->
  fst (render ctx n w) = Raise AttributeError /\
  fst (render ctx n w) <> Ok (jsonify empty_shape).
Proof.
  intros Hp Hn. rewrite (render_missing ctx n w Hp Hn). simpl.
  split; [reflexivity | discriminate].
Qed.

(** C2, as amended.  A GET request to a route whose view carries
    [@need_permissions()] ([/], [/<id>], [/register], [/<id>/render],
    [/property], [/property/list], [/property/<id>]), under a permission
    factory that denies, is aborted with 403 when the user is
    authenticated and with 401 otherwise; the view does not run. *)
Theorem gated_get_denied ctx req e w :
  req_method req = GET ->
  url_map GET (req_path req) = Some e ->
  permission_gated e = true ->
  current_permission_factory ctx = Some false ->
  dispatch_request ctx req w = (Raise (denial ctx), w).
Proof.
  intros Hm Hu Hg Hp. unfold dispatch_request. rewrite Hm, Hu.
  destruct e; try discriminate Hg; simpl;
    unfold index, render, custom_property, get_property_list, get_property;
    apply need_permissions_denied; assumption.
Qed.

(** C7.  [mapping_index]: without item types ([get_all] gives [None] or
    an empty list) the error template; with item types and an id that
    [get_by_id] does not know, a redirect to the mapping page of the first
    item type; otherwise the mapping template with the item types, the
    mapping of the id written by [json.dumps(_, indent=4)], and the id. *)
Theorem mapping_index_cases n w :
  (ItemTypes_get_all (session w) = None \/ ItemTypes_get_all (session w) = Some [] ->
   fst (mapping_index n w) =
     Ok (render_template (config "WEKO_ITEMTYPES_UI_ERROR_TEMPLATE") [])) /\
  (forall first others,
     ItemTypes_get_all (session w) = Some (first :: others) ->
     ItemTypes_get_by_id n (session w) = None ->
     fst (mapping_index n w) =
       Ok (redirect ("/itemtypes/mapping/" ++ str_of_int (it_id first)))) /\
  (forall first others it,
     ItemTypes_get_all (session w) = Some (first :: others) ->
     ItemTypes_get_by_id n (session w) = Some it ->
     fst (mapping_index n w) =
       Ok (render_template (config "WEKO_ITEMTYPES_UI_MAPPING_TEMPLATE")
             [("lists", TItemTypes (first :: others));
              ("mapping",
               TStr (json_dumps_indent4 (Mapping_get_record n (session w))));
              ("id", TInt n)])).
Proof.
  split; [|split].
  - intros H. rewrite (mapping_index_none n w H). reflexivity.
  - intros first others Hall Hid.
    rewrite (mapping_index_unknown n w first others Hall Hid). reflexivity.
  - intros first others it Hall Hid.
    rewrite (mapping_index_known n w first others it Hall Hid). reflexivity.
Qed.

(** Every POST rule leads to one of the three views that write. *)
Lemma url_map_POST path e :
  url_map POST path = Some e -> is_write_endpoint e = true.
Proof.
  unfold url_map. destruct path as [|a [|b [|c rest]]]; try discriminate.
  - destruct (String.eqb a "register"); [intros [= <-]; reflexivity|].
    destruct (String.eqb a "property"); [intros [= <-]; reflexivity|].
    destruct (String.eqb a "mapping"); [intros [= <-]; reflexivity|].
    discriminate.
  - destruct (String.eqb a "property").
    + destruct (int_converter b); simpl; [intros [= <-]; reflexivity | discriminate].
    + destruct (String.eqb b "register"); [|discriminate].
      destruct (int_converter a); simpl; [intros [= <-]; reflexivity | discriminate].
Qed.



(** C9.  No POST rule leads to a view that carries [@need_permissions()],
    and the answer to a POST request and what it does to the world do not
    depend on the permission factory nor on the user. *)
Theorem post_ignores_permission ctx1 ctx2 req w :
  req_method req = POST ->
  (forall e, url_map POST (req_path req) = Some e -> permission_gated e = false) /\
  dispatch_request ctx1 req w = dispatch_request ctx2 req w.
Proof.
  intros Hm. split.
  - intros e Hu. pose proof (url_map_POST _ _ Hu) as Hw.
    destruct e; try discriminate Hw; reflexivity.
  - unfold dispatch_request. rewrite Hm.
    destruct (url_map POST (req_path req)) as [e|] eqn:Hu; [|reflexivity].
    pose proof (url_map_POST _ _ Hu) as Hw.
    destruct e; try discriminate Hw; reflexivity.
Qed.

(** C6.  On a missing entity, two of the four read paths raise:
    [render] reads the attribute [render] of its default dict and
    [get_property] the attribute [id] of [None], an [AttributeError]
    each; [get_property_list] answers the empty document and
    [mapping_index] the error template or a redirect. *)
Theorem read_paths_on_missing_entities ctx n w :
  permitted ctx = true ->
  (n = 0 \/ ItemTypes_get_by_id n (session w) = None ->
   fst (render ctx n w) = Raise AttributeError) /\
  (ItemTypeProps_get_record n (session w) = None ->
   fst (get_property ctx n w) = Raise AttributeError) /\
  (ItemTypeProps_get_records (session w) = [] ->
   fst (get_property_list ctx w) = Ok (jsonify (JDict []))) /\
  (ItemTypes_get_all (session w) = None \/ ItemTypes_get_all (session w) = Some [] ->
   fst (mapping_index n w) =
     Ok (render_template (config "WEKO_ITEMTYPES_UI_ERROR_TEMPLATE") [])) /\
  (forall first others,
     ItemTypes_get_all (session w) = Some (first :: others) ->
     ItemTypes_get_by_id n (session w) = None ->
     fst (mapping_index n w) = Ok (redirect (url_for_mapping_index (it_id first)))).
Proof.
  intros Hp. repeat split.
  - intros Hn. rewrite (render_missing ctx n w Hp Hn). reflexivity.
  - intros Hn. rewrite (get_property_missing ctx n w Hp Hn). reflexivity.
  - intros Hn. unfold get_property_list.
    rewrite need_permissions_permitted by assumption.
    unfold_monad. rewrite Hn. reflexivity.
  - intros Hn. rewrite (mapping_index_none n w Hn). reflexivity.
  - intros first others Hall Hid.
    rewrite (mapping_index_unknown n w first others Hall Hid). reflexivity.
Qed.

(** C8.  [mapping_register] on a body whose [mapping] is a JSON-encoded
    string stores what the string parses to, not the string: once
    [json.loads] has read it, [Mapping.create] is called with the
    [item_type_id] of the body and the parsed value, the session is
    committed, and the answer is [{msg: _('Success')}]. *)
Theorem mapping_register_stores_parsed req w data id encoded mapping s' :
  req_content_type req = Some "application/json" ->
  json_loads_str (req_body req) = Ok data ->
  py_get data "item_type_id" = Ok id ->
  py_get data "mapping" = Ok (JStr encoded) ->
  json_loads_str encoded = Ok mapping ->
  Mapping_create id mapping (session w) = (Ok tt, s') ->
  commit_error s' = None ->
  mapping_register req w =
    (Ok (jsonify (JDict [("msg", JStr (gettext "Success"))])),
     mkWorld s' s'
             (trace w ++ [ev_debug (LJson data);
                          ev_call (mapping_create id mapping) None;
                          ev_call commit None])).
Proof.
  intros Hct Hbody Hid Henc Hloads Hcreate Hcommit.
  unfold mapping_register; unfold_monad.
  rewrite Hct, String.eqb_refl, Hbody. simpl.
  rewrite Hid, Henc. simpl. rewrite Hloads, Hcreate. simpl.
  rewrite Hcommit. rewrite <- !app_assoc. reflexivity.
Qed.

(** C10.  A body that lacks its required key fails inside the [try]
    block: [register] on a dict without [table_row_map] and
    [mapping_register] on a dict whose [mapping] is not a string reach no
    write of the data layer, roll the session back and answer
    [{msg: _('Fail')}]; nothing is raised. *)
Theorem missing_key_fails req w members :
  req_content_type req = Some "application/json" ->
  json_loads_str (req_body req) = Ok (JDict members) ->
  (forall n,
     assoc_get "table_row_map" members = None ->
     register req n w =
       (Ok (jsonify (JDict [("msg", JStr (gettext "Fail"))])),
        mkWorld (committed w) (committed w)
                (trace w ++ [ev_call rollback None]))) /\
  ((forall encoded, dict_get members "mapping" <> JStr encoded) ->
   mapping_register req w =
     (Ok (jsonify (JDict [("msg", JStr (gettext "Fail"))])),
      mkWorld (committed w) (committed w)
              (trace w ++ [ev_debug (LJson (JDict members));
                           ev_call rollback None]))).
Proof.
  intros Hct Hbody. split.
  - intros n Hkey. unfold register; unfold_monad.
    rewrite Hct, String.eqb_refl, Hbody. simpl.
    unfold dict_get. rewrite Hkey. reflexivity.
  - intros Hstr. unfold mapping_register; unfold_monad.
    rewrite Hct, String.eqb_refl, Hbody. simpl.
    destruct (dict_get members "mapping") eqn:Hm; simpl;
      try (rewrite <- !app_assoc; reflexivity).
    exfalso. apply (Hstr s). reflexivity.
Qed.

(** C3.  [register] with the id 0 on a body that has its
    [table_row_map]: the item type is created by [ItemTypes.update], its
    mapping by [Mapping.create] under the id of the record that [update]
    returned, both in the session, and one commit makes them the
    database.  When [update], [Mapping.create] or the commit raises, the
    session is rolled back and the database is the one before the
    request.  The database after the request is never anything else. *)
Theorem register_new_atomic req w data trm :
  req_content_type req = Some "application/json" ->
  json_loads_str (req_body req) = Ok data ->
  py_get data "table_row_map" = Ok (JDict trm) ->
  let name := dict_get trm "name" in
  let schema := dict_get trm "schema" in
  let form := dict_get trm "form" in
  let mapping := dict_get trm "mapping" in
  let created := ItemTypes_update 0 name schema form data (session w) in
  let mapped (record : ItemTypeRecord) (s1 : db) :=
    Mapping_create (JInt (it_id (model record))) mapping s1 in
  let fail := Ok (jsonify (JDict [("msg", JStr (gettext "Fail"))])) in
  (forall record s1 s2,
     created = (Ok record, s1) ->
     mapped record s1 = (Ok tt, s2) ->
     commit_error s2 = None ->
     register req 0 w =
       (Ok (jsonify (JDict [("msg", JStr (gettext "Success"))])),
        mkWorld s2 s2
          (trace w ++
           [ev_call (update 0 name schema form data) None;
            ev_call (mapping_create (JInt (it_id (model record))) mapping) None;
            ev_call commit None;
            ev_debug (LStr ("itemtype register: "
                            ++ str_of_int (it_id (model record))))]))) /\
  (forall record s1 s2 e,
     created = (Ok record, s1) ->
     mapped record s1 = (Raise e, s2) ->
     register req 0 w =
       (fail,
        rolled_back w
          [ev_call (update 0 name schema form data) None;
           ev_call (mapping_create (JInt (it_id (model record))) mapping)
                   (Some e)])) /\
  (forall record s1 s2 e,
     created = (Ok record, s1) ->
     mapped record s1 = (Ok tt, s2) ->
     commit_error s2 = Some e ->
     register req 0 w =
       (fail,
        rolled_back w
          [ev_call (update 0 name schema form data) None;
           ev_call (mapping_create (JInt (it_id (model record))) mapping) None;
           ev_call commit (Some e)])) /\
  (forall s1 e,
     created = (Raise e, s1) ->
     register req 0 w =
       (fail, rolled_back w [ev_call (update 0 name schema form data) (Some e)])) /\
  (committed (snd (register req 0 w)) = committed w \/
   exists record s1 s2,
     created = (Ok record, s1) /\ mapped record s1 = (Ok tt, s2) /\
     committed (snd (register req 0 w)) = s2).
Proof.
  intros Hct Hbody Htrm name schema form mapping created mapped fail.
  assert (Hrun : register req 0 w =
    let (r1, s1) := created in
    match r1 with
    | Raise e =>
        (fail, rolled_back w [ev_call (update 0 name schema form data) (Some e)])
    | Ok record =>
        let c1 := ev_call (update 0 name schema form data) None in
        let (r2, s2) := mapped record s1 in
        let c2 := ev_call (mapping_create (JInt (it_id (model record))) mapping)
                          (raised_of r2) in
        match r2 with
        | Raise e => (fail, rolled_back w [c1; c2])
        | Ok _ =>
            match commit_error s2 with
            | Some e => (fail, rolled_back w [c1; c2; ev_call commit (Some e)])
            | None =>
                (Ok (jsonify (JDict [("msg", JStr (gettext "Success"))])),
                 mkWorld s2 s2
                   (trace w ++
                    [c1; c2; ev_call commit None;
                     ev_debug (LStr ("itemtype register: "
                                     ++ str_of_int (it_id (model record))))]))
            end
        end
    end).
  { unfold register; unfold_monad.
    rewrite Hct, String.eqb_refl, Hbody. simpl.
    rewrite !Htrm. simpl.
    fold name schema form mapping. fold created.
    destruct created as [[record | e] s1]; simpl.
    - fold (mapped record s1).
      destruct (mapped record s1) as [[u | e] s2]; simpl.
      + destruct (commit_error s2); simpl; rewrite <- !app_assoc; reflexivity.
      + rewrite <- !app_assoc. reflexivity.
    - rewrite <- !app_assoc. reflexivity. }
  rewrite Hrun. repeat split.
  - intros record s1 s2 H1 H2 H3. rewrite H1, H2, H3. reflexivity.
  - intros record s1 s2 e H1 H2. rewrite H1, H2. reflexivity.
  - intros record s1 s2 e H1 H2 H3. rewrite H1, H2, H3. reflexivity.
  - intros s1 e H1. rewrite H1. reflexivity.
  - destruct created as [[record | e] s1]; [|left; reflexivity].
    destruct (mapped record s1) as [[[] | e] s2] eqn:H2; [|left; reflexivity].
    destruct (commit_error s2); [left; reflexivity|].
    right. exists record, s1, s2. repeat split; assumption.
Qed.

Lemma register_exception req n w data c ex :
  req_content_type req = Some "application/json" ->
  json_loads_str (req_body req) = Ok data ->
  In (ev_call c (Some ex)) (added w (snd (register req n w))) ->
  failed_and_rolled_back w (register req n w).
Proof.
  intros Hct Hbody. unfold failed_and_rolled_back, added, register; unfold_monad.
  rewrite Hct, String.eqb_refl, Hbody. simpl.
  repeat (case_call; simpl); intros H; in_added H;
    repeat split; apply last_last.
Qed.

Lemma mapping_register_exception req w data c ex :
  req_content_type req = Some "application/json" ->
  json_loads_str (req_body req) = Ok data ->
  In (ev_call c (Some ex)) (added w (snd (mapping_register req w))) ->
  failed_and_rolled_back w (mapping_register req w).
Proof.
  intros Hct Hbody.
  unfold failed_and_rolled_back, added, mapping_register; unfold_monad.
  rewrite Hct, String.eqb_refl, Hbody. simpl.
  repeat (case_call; simpl); intros H; in_added H;
    repeat split; apply last_last.
Qed.

Lemma custom_property_new_exception req n w data c ex :
  req_content_type req = Some "application/json" ->
  json_loads_str (req_body req) = Ok data ->
  In (ev_call c (Some ex)) (added w (snd (custom_property_new req n w))) ->
  is_Exception ex = true ->
  failed_and_rolled_back w (custom_property_new req n w).
Proof.
  intros Hct Hbody.
  unfold failed_and_rolled_back, added, custom_property_new; unfold_monad.
  rewrite Hct, String.eqb_refl, Hbody. simpl.
  repeat (case_call; simpl); intros H Hex; in_added H;
    try (injection H as _ ->; congruence);
    repeat split; apply last_last.
Qed.

(** What [except Exception] does not catch leaves [custom_property_new]
    as it was raised, and nothing is rolled back. *)
Lemma custom_property_new_base_exception req n w data c ex :
  req_content_type req = Some "application/json" ->
  json_loads_str (req_body req) = Ok data ->
  In (ev_call c (Some ex)) (added w (snd (custom_property_new req n w))) ->
  is_Exception ex = false ->
  fst (custom_property_new req n w) = Raise ex /\
  committed (snd (custom_property_new req n w)) = committed w /\
  ~ In (ev_call rollback None) (added w (snd (custom_property_new req n w))).
Proof.
  intros Hct Hbody.
  unfold added, custom_property_new; unfold_monad.
  rewrite Hct, String.eqb_refl, Hbody. simpl.
  repeat (case_call; simpl); intros H Hex; in_added H;
    injection H as _ ->; try congruence;
    (split; [reflexivity | split; [reflexivity |]]);
    intros Hin; in_added Hin.
Qed.

(** C5, as amended.  In a POST to a write endpoint with the content type
    [application/json] and a body that parses, when a call to the data
    layer or the commit raises, the session is rolled back, the database
    is unchanged and the answer is [{msg: _('Fail')}]: for [register] and
    [mapping_register] whatever is raised, for [custom_property_new] when
    what is raised is an instance of [Exception].  What is raised under
    [custom_property_new] and is no instance of [Exception] leaves the
    view as it was raised, without a rollback. *)
Theorem write_exception_rolls_back ctx req e data w c ex :
  req_method req = POST ->
  url_map POST (req_path req) = Some e ->
  req_content_type req = Some "application/json" ->
  json_loads_str (req_body req) = Ok data ->
  In (ev_call c (Some ex)) (added w (snd (dispatch_request ctx req w))) ->
  ((forall n, e = ep_custom_property_new n -> is_Exception ex = true) ->
   failed_and_rolled_back w (dispatch_request ctx req w)) /\
  (forall n,
     e = ep_custom_property_new n ->
     is_Exception ex = false ->
     fst (dispatch_request ctx req w) = Raise ex /\
     committed (snd (dispatch_request ctx req w)) = committed w /\
     ~ In (ev_call rollback None)
         (added w (snd (dispatch_request ctx req w)))).
Proof.
  intros Hm Hu Hct Hbody. unfold dispatch_request. rewrite Hm, Hu.
  pose proof (url_map_POST _ _ Hu) as Hw.
  destruct e; try discriminate Hw; simpl; intros Hin; split.
  - intros _. eapply register_exception; eassumption.
  - intros n [=].
  - intros Hex. eapply custom_property_new_exception; try eassumption.
    apply (Hex property_id). reflexivity.
  - intros n _ Hex. eapply custom_property_new_base_exception; eassumption.
  - intros _. eapply mapping_register_exception; eassumption.
  - intros n [=].
Qed.

End Properties.

(** * The views at work on the in-memory instance *)

Example loads_mapping_body :
  Memory.loads Memory.mapping_body =
    Ok (JDict [("item_type_id", JInt 5); ("mapping", JStr (Memory.dq "{'a':1}"))]).
Proof. reflexivity. Qed.

Example dumps_library_mapping :
  Memory.dumps_indent4 (Memory.store_mapping_get_record 2 Memory.library) =
    Memory.dq "{
    'title': {
        'jpcoar': 'dc:title'
    }
}".
Proof. reflexivity. Qed.

Example int_converter_digits : int_converter "042" = Some 42.
Proof. reflexivity. Qed.

Example int_converter_word : int_converter "register" = None.
Proof. reflexivity. Qed.

(** The check of [check_permission] with [hidden] set does answer 404. *)
Example check_permission_hidden :
  check_permission Memory.member (Some false) true (Memory.fresh Memory.empty_store)
  = (Raise (HTTPException 404 None), Memory.fresh Memory.empty_store).
Proof. reflexivity. Qed.

(** The same GET, answered to one caller and refused to another: the
    views that carry the decorator do depend on the context. *)
Example get_depends_on_permission :
  fst (dispatch_request Memory.admin (mkRequest GET ["property"; "list"] None "")
         (Memory.fresh Memory.library))
    = Ok (jsonify (JDict [])) /\
  fst (dispatch_request Memory.anonymous (mkRequest GET ["property"; "list"] None "")
         (Memory.fresh Memory.library))
    = Raise (HTTPException 401 None).
Proof. split; reflexivity. Qed.

(** The location of the redirect of [mapping_index] is a URL of
    [mapping_index]. *)
Example url_for_mapping_index_routes :
  url_for_mapping_index 12 = "/itemtypes/mapping/12" /\
  url_map GET ["mapping"; "12"] = Some (ep_mapping_index 12).
Proof. split; reflexivity. Qed.

Lemma render_missing_raises_witness :
  fst (render Memory.admin 0 (Memory.fresh Memory.library)) = Raise AttributeError /\
  fst (render Memory.admin 0 (Memory.fresh Memory.library))
    <> Ok (jsonify empty_shape).
Proof.
  apply (render_missing_raises Memory.admin 0 (Memory.fresh Memory.library)).
  - reflexivity.
  - left. reflexivity.
Defined.

(** GET [/] by an authenticated user whom the permission factory denies:
    the abort is a 403, not a 404. *)
Lemma gated_get_denied_is_not_404 :
  url_map GET [] = Some (ep_index 0) /\
  permission_gated (ep_index 0) = true /\
  current_permission_factory Memory.member = Some false /\
  fst (dispatch_request Memory.member (mkRequest GET [] None "")
         (Memory.fresh Memory.library))
    = Raise (HTTPException 403 (Some "You do not have a permission for itemtype")) /\
  fst (dispatch_request Memory.member (mkRequest GET [] None "")
         (Memory.fresh Memory.library))
    <> Raise (HTTPException 404 None).
Proof.
  repeat split; try reflexivity. vm_compute. discriminate.
Qed.

Lemma gated_get_denied_witness :
  dispatch_request Memory.anonymous (mkRequest GET ["3"; "render"] None "")
    (Memory.fresh Memory.library)
  = (Raise (HTTPException 401 None), Memory.fresh Memory.library).
Proof.
  apply (gated_get_denied Memory.anonymous (mkRequest GET ["3"; "render"] None "")
           (ep_render 3) (Memory.fresh Memory.library));
    reflexivity.
Defined.

Lemma register_new_atomic_witness :
  (fst (register Memory.register_request 0 (Memory.fresh Memory.library))
     = Ok (jsonify (JDict [("msg", JStr "Success")])) /\
   Memory.find_item_type 3
     (committed (snd (register Memory.register_request 0
                        (Memory.fresh Memory.library))))
     = Some (mkItemType 3 (JDict []) (JList []) Memory.register_data) /\
   Memory.lookup_Z 3
     (Memory.mappings
        (committed (snd (register Memory.register_request 0
                           (Memory.fresh Memory.library)))))
     = Some (JDict [("title", JInt 1)])) /\
  register Memory.register_request 0
    (Memory.fresh (Memory.store_failing Memory.at_mapping_create
                     (Error "IntegrityError")))
  = (Ok (jsonify (JDict [("msg", JStr "Fail")])),
     rolled_back
       (Memory.fresh (Memory.store_failing Memory.at_mapping_create
                        (Error "IntegrityError")))
       [ev_call (update 0 (JStr "Article") (JDict []) (JList [])
                   Memory.register_data) None;
        ev_call (mapping_create (JInt 1) (JDict [("title", JInt 1)]))
                (Some (Error "IntegrityError"))]) /\
  register Memory.register_request 0
    (Memory.fresh (Memory.store_failing Memory.at_commit (Error "OperationalError")))
  = (Ok (jsonify (JDict [("msg", JStr "Fail")])),
     rolled_back
       (Memory.fresh (Memory.store_failing Memory.at_commit
                        (Error "OperationalError")))
       [ev_call (update 0 (JStr "Article") (JDict []) (JList [])
                   Memory.register_data) None;
        ev_call (mapping_create (JInt 1) (JDict [("title", JInt 1)])) None;
        ev_call commit (Some (Error "OperationalError"))]).
Proof.
  assert (Hbody : json_loads_str (req_body Memory.register_request)
                  = Ok Memory.register_data)
    by (vm_compute; reflexivity).
  split; [|split].
  - destruct (register_new_atomic Memory.register_request
                (Memory.fresh Memory.library) Memory.register_data
                [("name", JStr "Article"); ("schema", JDict []);
                 ("form", JList []); ("mapping", JDict [("title", JInt 1)])]
                eq_refl Hbody eq_refl)
      as (Hok & _).
    erewrite Hok by reflexivity. repeat split; reflexivity.
  - destruct (register_new_atomic Memory.register_request
                (Memory.fresh (Memory.store_failing Memory.at_mapping_create
                                 (Error "IntegrityError")))
                Memory.register_data
                [("name", JStr "Article"); ("schema", JDict []);
                 ("form", JList []); ("mapping", JDict [("title", JInt 1)])]
                eq_refl Hbody eq_refl)
      as (_ & Hmap & _).
    erewrite Hmap by reflexivity. reflexivity.
  - destruct (register_new_atomic Memory.register_request
                (Memory.fresh (Memory.store_failing Memory.at_commit
                                 (Error "OperationalError")))
                Memory.register_data
                [("name", JStr "Article"); ("schema", JDict []);
                 ("form", JList []); ("mapping", JDict [("title", JInt 1)])]
                eq_refl Hbody eq_refl)
      as (_ & _ & Hcommit & _).
    erewrite Hcommit by reflexivity. reflexivity.
Defined.



(** [ItemTypeProps.create] is interrupted: [custom_property_new] lets the
    [KeyboardInterrupt] through and does not roll back. *)
Lemma custom_property_new_reraises :
  req_content_type Memory.property_request = Some "application/json" /\
  json_loads_str (req_body Memory.property_request) = Ok Memory.property_data /\
  trace (snd (dispatch_request Memory.admin Memory.property_request
                (Memory.fresh (Memory.store_failing Memory.at_props_create
                                 KeyboardInterrupt))))
  = [ev_call (props_create 4 (JStr "Title") (JDict []) (JDict []) (JList []))
             (Some KeyboardInterrupt)] /\
  fst (dispatch_request Memory.admin Memory.property_request
         (Memory.fresh (Memory.store_failing Memory.at_props_create
                          KeyboardInterrupt)))
  = Raise KeyboardInterrupt.
Proof.
  repeat split; vm_compute; reflexivity.
Qed.

Lemma write_exception_rolls_back_witness :
  failed_and_rolled_back
    (Memory.fresh (Memory.store_failing Memory.at_props_create
                     (Error "IntegrityError")))
    (dispatch_request Memory.admin Memory.property_request
       (Memory.fresh (Memory.store_failing Memory.at_props_create
                        (Error "IntegrityError")))) /\
  (fst (dispatch_request Memory.admin Memory.property_request
          (Memory.fresh (Memory.store_failing Memory.at_commit SystemExit)))
   = Raise SystemExit /\
   committed (snd (dispatch_request Memory.admin Memory.property_request
                     (Memory.fresh (Memory.store_failing Memory.at_commit
                                      SystemExit))))
   = Memory.store_failing Memory.at_commit SystemExit /\
   ~ In (ev_call rollback None)
       (added (Memory.fresh (Memory.store_failing Memory.at_commit SystemExit))
          (snd (dispatch_request Memory.admin Memory.property_request
                  (Memory.fresh (Memory.store_failing Memory.at_commit
                                   SystemExit)))))).
Proof.
  split.
  - refine (proj1 (write_exception_rolls_back Memory.admin Memory.property_request
                     (ep_custom_property_new 4) Memory.property_data
                     (Memory.fresh (Memory.store_failing Memory.at_props_create
                                      (Error "IntegrityError")))
                     (props_create 4 (JStr "Title") (JDict []) (JDict [])
                        (JList []))
                     (Error "IntegrityError") _ _ _ _ _) _).
    + reflexivity.
    + reflexivity.
    + reflexivity.
    + vm_compute; reflexivity.
    + vm_compute. left. reflexivity.
    + intros n _. reflexivity.
  - refine (proj2 (write_exception_rolls_back Memory.admin Memory.property_request
                     (ep_custom_property_new 4) Memory.property_data
                     (Memory.fresh (Memory.store_failing Memory.at_commit
                                      SystemExit))
                     commit SystemExit _ _ _ _ _) 4 _ _).
    + reflexivity.
    + reflexivity.
    + reflexivity.
    + vm_compute; reflexivity.
    + vm_compute. right. left. reflexivity.
    + reflexivity.
    + reflexivity.
Defined.

Lemma read_paths_on_missing_entities_witness :
  fst (render Memory.admin 0 (Memory.fresh Memory.library)) = Raise AttributeError /\
  fst (get_property Memory.admin 0 (Memory.fresh Memory.library))
    = Raise AttributeError /\
  fst (get_property_list Memory.admin (Memory.fresh Memory.library))
    = Ok (jsonify (JDict [])) /\
  fst (mapping_index 0 (Memory.fresh Memory.empty_store))
    = Ok (render_template "WEKO_ITEMTYPES_UI_ERROR_TEMPLATE" []) /\
  fst (mapping_index 0 (Memory.fresh Memory.library))
    = Ok (redirect "/itemtypes/mapping/1").
Proof.
  destruct (read_paths_on_missing_entities Memory.admin 0
              (Memory.fresh Memory.library) eq_refl)
    as (Hrender & Hprop & Hlist & _ & Hredirect).
  destruct (read_paths_on_missing_entities Memory.admin 0
              (Memory.fresh Memory.empty_store) eq_refl)
    as (_ & _ & _ & Herror & _).
  split; [|split; [|split; [|split]]].
  - apply Hrender. left. reflexivity.
  - apply Hprop. reflexivity.
  - apply Hlist. reflexivity.
  - refine (Herror _). right. reflexivity.
  - refine (Hredirect Memory.article [Memory.thesis] _ _); reflexivity.
Defined.

Lemma mapping_index_cases_witness :
  fst (mapping_index 2 (Memory.fresh Memory.empty_store))
    = Ok (render_template "WEKO_ITEMTYPES_UI_ERROR_TEMPLATE" []) /\
  fst (mapping_index 7 (Memory.fresh Memory.library))
    = Ok (redirect "/itemtypes/mapping/1") /\
  fst (mapping_index 2 (Memory.fresh Memory.library))
    = Ok (render_template "WEKO_ITEMTYPES_UI_MAPPING_TEMPLATE"
            [("lists", TItemTypes [Memory.article; Memory.thesis]);
             ("mapping", TStr (Memory.dq "{
    'title': {
        'jpcoar': 'dc:title'
    }
}"));
             ("id", TInt 2)]).
Proof.
  split; [|split].
  - refine (proj1 (mapping_index_cases 2 (Memory.fresh Memory.empty_store)) _).
    right. reflexivity.
  - refine (proj1 (proj2 (mapping_index_cases 7 (Memory.fresh Memory.library)))
              Memory.article [Memory.thesis] _ _); reflexivity.
  - refine (proj2 (proj2 (mapping_index_cases 2 (Memory.fresh Memory.library)))
              Memory.article [Memory.thesis] Memory.thesis _ _); reflexivity.
Defined.

(** The example of the specification: the mapping is stored under the
    item type 5 as the object [{a: 1}]. *)
Lemma mapping_register_stores_parsed_witness :
  mapping_register Memory.mapping_request (Memory.fresh Memory.empty_store)
  = (Ok (jsonify (JDict [("msg", JStr "Success")])),
     mkWorld (Memory.mkStore [] [] [] [(5, JDict [("a", JInt 1)])] [])
             (Memory.mkStore [] [] [] [(5, JDict [("a", JInt 1)])] [])
             [ev_debug (LJson (JDict [("item_type_id", JInt 5);
                                      ("mapping", JStr (Memory.dq "{'a':1}"))]));
              ev_call (mapping_create (JInt 5) (JDict [("a", JInt 1)])) None;
              ev_call commit None]).
Proof.
  refine (mapping_register_stores_parsed Memory.mapping_request
            (Memory.fresh Memory.empty_store)
            (JDict [("item_type_id", JInt 5);
                    ("mapping", JStr (Memory.dq "{'a':1}"))])
            (JInt 5) (Memory.dq "{'a':1}") (JDict [("a", JInt 1)])
            (Memory.mkStore [] [] [] [(5, JDict [("a", JInt 1)])] [])
            _ _ _ _ _ _ _).
  - reflexivity.
  - vm_compute; reflexivity.
  - reflexivity.
  - reflexivity.
  - vm_compute; reflexivity.
  - reflexivity.
  - reflexivity.
Defined.

Lemma post_ignores_permission_witness :
  (forall e, url_map POST (req_path Memory.mapping_request) = Some e ->
             permission_gated e = false) /\
  dispatch_request Memory.admin Memory.mapping_request
    (Memory.fresh Memory.empty_store)
  = dispatch_request Memory.anonymous Memory.mapping_request
      (Memory.fresh Memory.empty_store).
Proof.
  refine (post_ignores_permission Memory.admin Memory.anonymous
            Memory.mapping_request (Memory.fresh Memory.empty_store) _).
  reflexivity.
Defined.

Lemma missing_key_fails_witness :
  register Memory.keyless_request 0 (Memory.fresh Memory.library)
  = (Ok (jsonify (JDict [("msg", JStr "Fail")])),
     mkWorld Memory.library Memory.library [ev_call rollback None]) /\
  mapping_register Memory.unencoded_request (Memory.fresh Memory.library)
  = (Ok (jsonify (JDict [("msg", JStr "Fail")])),
     mkWorld Memory.library Memory.library
       [ev_debug (LJson (JDict [("item_type_id", JInt 5);
                                ("mapping", JDict [("a", JInt 1)])]));
        ev_call rollback None]).
Proof.
  split.
  - refine (proj1 (missing_key_fails Memory.keyless_request
                     (Memory.fresh Memory.library)
                     [("name", JStr "Article")] eq_refl _) 0 _).
    + vm_compute; reflexivity.
    + reflexivity.
  - refine (proj2 (missing_key_fails Memory.unencoded_request
                     (Memory.fresh Memory.library)
                     [("item_type_id", JInt 5); ("mapping", JDict [("a", JInt 1)])]
                     eq_refl _) _).
    + vm_compute; reflexivity.
    + intros encoded. discriminate.
Defined.

(** * More properties of the views *)

Section Coverage.

Context {db : Type} `{C : Collaborators db}.

Implicit Types (ctx : context) (req : request) (w : world db) (n : Z).

(** Splits on what a read view looks at. *)
Ltac case_read :=
  match goal with
  | |- context [current_permission_factory ?c] =>
      destruct (current_permission_factory c) as [[|]|] eqn:?
  | |- context [is_authenticated ?c] => destruct (is_authenticated c) eqn:?
  | |- context [ItemTypes_get_by_id ?n ?s] =>
      destruct (ItemTypes_get_by_id n s) eqn:?
  | |- context [ItemTypeProps_get_record ?n ?s] =>
      destruct (ItemTypeProps_get_record n s) eqn:?
  | |- context [ItemTypes_get_all ?s] =>
      destruct (ItemTypes_get_all s) as [[|? ?]|] eqn:?
  | |- context [?n >? 0] => destruct (n >? 0) eqn:?
  end.

(** Spells out a hypothesis on the entries added to a trace. *)
Ltac added_in H :=
  unfold added in H; simpl in H; rewrite <- ?app_assoc in H;
  first [rewrite skipn_length_app in H | rewrite skipn_all in H]; simpl in H;
  repeat (destruct H as [H | H]); try contradiction; try discriminate H.

(** Proves that an entry is among those added to a trace. *)
Ltac added_has :=
  unfold added; simpl; rewrite <- ?app_assoc;
  first [rewrite skipn_length_app | rewrite skipn_all]; simpl; tauto.

(** Every GET rule leads to a view that reads. *)
Lemma url_map_GET path e :
  url_map GET path = Some e -> is_write_endpoint e = false.
Proof.
  unfold url_map. destruct path as [|a [|b [|c rest]]]; try discriminate.
  - intros [= <-]; reflexivity.
  - destruct (String.eqb a "register"); [intros [= <-]; reflexivity|].
    destruct (String.eqb a "property"); [intros [= <-]; reflexivity|].
    destruct (String.eqb a "mapping"); [intros [= <-]; reflexivity|].
    destruct (int_converter a); simpl; [intros [= <-]; reflexivity | discriminate].
  - destruct (String.eqb a "property").
    { destruct (String.eqb b "list"); [intros [= <-]; reflexivity|].
      destruct (int_converter b); simpl; [intros [= <-]; reflexivity | discriminate]. }
    destruct (String.eqb a "mapping").
    { destruct (int_converter b); simpl; [intros [= <-]; reflexivity | discriminate]. }
    destruct (String.eqb b "render"); [|discriminate].
    destruct (int_converter a); simpl; [intros [= <-]; reflexivity | discriminate].
Qed.

(** X1.  [check_permission] aborts exactly when a permission is given
    and it denies; with [hidden] the abort is a 404 whoever asks,
    without it a 403 for an authenticated user and a 401 otherwise.  It
    never touches the world. *)
Theorem check_permission_aborts_iff ctx permission hidden w :
  snd (check_permission ctx permission hidden w) = w /\
  (fst (check_permission ctx permission hidden w) = Ok tt <->
   permission <> Some false) /\
  (permission = Some false ->
   fst (check_permission ctx permission hidden w) =
     Raise (if hidden then HTTPException 404 None else denial ctx)).
Proof.
  unfold check_permission, denial, abort, raise, ret.
  destruct permission as [[|]|], hidden, (is_authenticated ctx); simpl;
    (split; [reflexivity | split; [split; congruence | congruence]]).
Qed.

(** X2.  Two callers whom the permission factory allows get the same
    answer and leave the same world, whether they are logged in or not:
    no view looks at the user. *)
Theorem permitted_requests_served_alike ctx1 ctx2 req w :
  current_permission_factory ctx1 = Some true ->
  current_permission_factory ctx2 = Some true ->
  dispatch_request ctx1 req w = dispatch_request ctx2 req w.
Proof.
  intros Hf1 Hf2.
  assert (H1 : permitted ctx1 = true) by (unfold permitted; rewrite Hf1; reflexivity).
  assert (H2 : permitted ctx2 = true) by (unfold permitted; rewrite Hf2; reflexivity).
  unfold dispatch_request.
  destruct (url_map (req_method req) (req_path req)) as [e|]; [|reflexivity].
  destruct e; simpl; try reflexivity;
    unfold index, render, custom_property, get_property_list, get_property;
    rewrite !need_permissions_permitted by assumption; reflexivity.
Qed.

Lemma get_reads ctx req w :
  req_method req = GET ->
  committed (snd (dispatch_request ctx req w)) = committed w /\
  session (snd (dispatch_request ctx req w)) = session w /\
  forall c r,
    In (ev_call c r) (added w (snd (dispatch_request ctx req w))) ->
    is_write_call c = false /\ r = None.
Proof.
  intros Hm. unfold dispatch_request. rewrite Hm.
  destruct (url_map GET (req_path req)) as [e|] eqn:Hu.
  - pose proof (url_map_GET _ _ Hu) as Hr.
    destruct e; try discriminate Hr; simpl; unfold_views; unfold hidden_default;
      repeat (case_read; simpl);
      (split; [reflexivity | split; [reflexivity |]]);
      intros c r H; added_in H; injection H as <- <-; split; reflexivity.
  - change (other_method GET) with POST.
    destruct (url_map POST (req_path req)); unfold_monad; simpl;
      (split; [reflexivity | split; [reflexivity |]]);
      intros c r H; added_in H.
Qed.


(** X3.  A GET request changes neither the database nor the session,
    and every call it makes to the data layer is a read that returns. *)
Theorem get_is_read_only ctx req w :
  req_method req = GET ->
  committed (snd (dispatch_request ctx req w)) = committed w /\
  session (snd (dispatch_request ctx req w)) = session w /\
  forall c r,
    In (ev_call c r) (added w (snd (dispatch_request ctx req w))) ->
    is_write_call c = false /\ r = None.
Proof. exact (get_reads ctx req w). Qed.
(** Splits on what a write view looks at before its [try] block. *)
Ltac case_entry :=
  match goal with
  | |- context [req_content_type ?r] => destruct (req_content_type r) eqn:?
  | |- context [String.eqb ?a "application/json"] =>
      destruct (String.eqb a "application/json") eqn:?
  | |- context [json_loads_str (req_body ?r)] =>
      destruct (json_loads_str (req_body r)) eqn:?
  end.

Ltac solve_succeeded :=
  unfold succeeded_and_committed; simpl;
  split; [reflexivity | split; [reflexivity | split; [added_has |]]];
  let H := fresh in intros H; added_in H.

Ltac solve_failed :=
  unfold failed_and_rolled_back; simpl;
  split; [split; [reflexivity | split; [reflexivity | split;
    [reflexivity | apply last_last]]] |];
  let H := fresh in intros H; added_in H.

(** X4.  Whatever the request, the database after it is the database
    before it, unless a commit succeeded during the request, and then
    the database is what the session holds at the end. *)
Theorem database_changes_only_by_commit ctx req w :
  committed (snd (dispatch_request ctx req w)) = committed w \/
  (committed (snd (dispatch_request ctx req w))
     = session (snd (dispatch_request ctx req w)) /\
   In (ev_call commit None) (added w (snd (dispatch_request ctx req w)))).
Proof.
  destruct (req_method req) eqn:Hm.
  - left. apply (get_reads ctx req w Hm).
  - unfold dispatch_request. rewrite Hm.
    destruct (url_map POST (req_path req)) as [e|] eqn:Hu.
    + pose proof (url_map_POST _ _ Hu) as Hw.
      destruct e; try discriminate Hw; simpl; unfold_views;
        repeat (case_entry; simpl); repeat (case_call; simpl);
        first [left; reflexivity | right; split; [reflexivity | added_has]].
    + change (other_method POST) with GET.
      destruct (url_map GET (req_path req)); left; reflexivity.
Qed.

(** X5.  A POST with the content type [application/json] and a body
    that parses has three outcomes and no other: [{msg: _('Success')}]
    after a successful commit and no rollback; [{msg: _('Fail')}] after a
    rollback, without a successful commit, the database unchanged; or,
    in [custom_property_new] only, an exception outside [Exception]
    that leaves the view, without rollback, the database unchanged. *)
Theorem write_outcomes ctx req e data w :
  req_method req = POST ->
  url_map POST (req_path req) = Some e ->
  req_content_type req = Some "application/json" ->
  json_loads_str (req_body req) = Ok data ->
  succeeded_and_committed w (dispatch_request ctx req w) \/
  (failed_and_rolled_back w (dispatch_request ctx req w) /\
   ~ In (ev_call commit None) (added w (snd (dispatch_request ctx req w)))) \/
  (exists n ex,
     e = ep_custom_property_new n /\
     fst (dispatch_request ctx req w) = Raise ex /\
     is_Exception ex = false /\
     committed (snd (dispatch_request ctx req w)) = committed w /\
     ~ In (ev_call rollback None) (added w (snd (dispatch_request ctx req w)))).
Proof.
  intros Hm Hu Hct Hbody. unfold dispatch_request. rewrite Hm, Hu.
  pose proof (url_map_POST _ _ Hu) as Hw.
  destruct e; try discriminate Hw; simpl; unfold_views;
    rewrite Hct, String.eqb_refl, Hbody; simpl;
    repeat (case_call; simpl);
    first [ left; solve_succeeded
          | right; left; solve_failed
          | right; right; eexists _, _;
            split; [reflexivity | split; [reflexivity | split; [eassumption |
              split; [reflexivity |]]]];
            let H := fresh in intros H; added_in H ].
Qed.

Lemma digits_value_acc d p :
  digits_value (NilEmpty.string_of_uint d) (Z.pos p)
  = Some (Z.pos (Pos.of_uint_acc d p)).
Proof.
  revert p. induction d; intros p; cbn [NilEmpty.string_of_uint digits_value Pos.of_uint_acc];
    try reflexivity;
    (replace (is_digit _) with true by reflexivity); rewrite <- IHd;
    apply (f_equal (digits_value _)); cbn [nat_of_ascii]; simpl Z.of_nat; lia.
Qed.

Lemma digits_value_uint d :
  digits_value (NilEmpty.string_of_uint d) 0 = Some (Z.of_N (Pos.of_uint d)).
Proof.
  induction d; simpl; try reflexivity; try exact IHd;
    unfold is_digit; simpl; apply digits_value_acc.
Qed.

Lemma string_of_uint_nonempty d :
  d <> Decimal.Nil -> NilEmpty.string_of_uint d <> EmptyString.
Proof. destruct d; simpl; congruence. Qed.

(** The converter reads back what [str] writes for an id. *)
Lemma int_converter_str_of_int n : 0 <= n -> int_converter (str_of_int n) = Some n.
Proof.
  intros Hn. destruct n as [|p|p]; [reflexivity | | lia].
  unfold str_of_int. simpl.
  pose proof (DecimalPos.Unsigned.to_uint_nonnil p) as Hnil.
  assert (Hs : NilZero.string_of_uint (Pos.to_uint p)
               = NilEmpty.string_of_uint (Pos.to_uint p)).
  { unfold NilZero.string_of_uint. destruct (Pos.to_uint p); congruence. }
  rewrite Hs. unfold int_converter.
  pose proof (string_of_uint_nonempty _ Hnil) as Hne.
  destruct (NilEmpty.string_of_uint (Pos.to_uint p)) eqn:Hstr; [congruence|].
  rewrite <- Hstr, digits_value_uint, DecimalPos.Unsigned.of_to. reflexivity.
Qed.

Lemma str_of_int_inj n m : str_of_int n = str_of_int m -> n = m.
Proof.
  unfold str_of_int. intros H. apply DecimalZ.to_int_inj.
  assert (Hisi : forall z, NilZero.int_of_string (NilZero.string_of_int (Z.to_int z))
                           = Some (Z.to_int z)).
  { intros z. apply NilZero.isi; destruct z; simpl; try discriminate;
      intros [= E]; exact (DecimalPos.Unsigned.to_uint_nonnil _ E). }
  pose proof (Hisi n) as Hn. rewrite H, Hisi in Hn. congruence.
Qed.

Lemma assoc_set_fresh k v kv :
  assoc_get k kv = None -> assoc_set k v kv = kv ++ [(k, v)].
Proof.
  induction kv as [|[k' v'] rest IH]; simpl; [reflexivity|].
  destruct (String.eqb k k'); [discriminate|]. intros H. rewrite IH by assumption.
  reflexivity.
Qed.

Lemma assoc_get_app k kv kv' :
  assoc_get k (kv ++ kv')
  = match assoc_get k kv with Some v => Some v | None => assoc_get k kv' end.
Proof.
  induction kv as [|[k' v'] rest IH]; simpl; [reflexivity|].
  destruct (String.eqb k k'); [reflexivity | exact IH].
Qed.

Lemma assoc_get_fields n props :
  ~ In n (map prop_id props) ->
  assoc_get (str_of_int n)
    (map (fun p => (str_of_int (prop_id p), property_fields p)) props) = None.
Proof.
  induction props as [|p rest IH]; simpl; [reflexivity|].
  intros H. destruct (String.eqb (str_of_int n) (str_of_int (prop_id p))) eqn:E.
  - apply String.eqb_eq, str_of_int_inj in E. exfalso. apply H. left. congruence.
  - apply IH. intros Hin. apply H. right. exact Hin.
Qed.

Lemma fold_property_entry props : forall acc,
  NoDup (map prop_id props) ->
  (forall p, In p props -> assoc_get (str_of_int (prop_id p)) acc = None) ->
  fold_left property_entry props acc
  = acc ++ map (fun p => (str_of_int (prop_id p), property_fields p)) props.
Proof.
  induction props as [|p rest IH]; intros acc Hnd Hacc; simpl.
  - symmetry. apply app_nil_r.
  - inversion Hnd as [|? ? Hnotin Hnd']; subst.
    unfold property_entry at 2. fold (property_fields p).
    rewrite assoc_set_fresh by (apply Hacc; left; reflexivity).
    rewrite IH.
    + rewrite <- app_assoc. reflexivity.
    + assumption.
    + intros q Hq. rewrite assoc_get_app, Hacc by (right; exact Hq).
      simpl. destruct (String.eqb (str_of_int (prop_id q)) (str_of_int (prop_id p))) eqn:E;
        [|reflexivity].
      apply String.eqb_eq, str_of_int_inj in E. exfalso. apply Hnotin.
      rewrite <- E. apply in_map. exact Hq.
Qed.

(** X6.  [register] with an id other than 0 creates the mapping under
    that id, whatever the id of the record that [ItemTypes.update]
    returned. *)
Theorem register_existing_maps_under_id req n w data trm record s1 s2 :
  n <> 0 ->
  req_content_type req = Some "application/json" ->
  json_loads_str (req_body req) = Ok data ->
  py_get data "table_row_map" = Ok (JDict trm) ->
  ItemTypes_update n (dict_get trm "name") (dict_get trm "schema")
    (dict_get trm "form") data (session w) = (Ok record, s1) ->
  Mapping_create (JInt n) (dict_get trm "mapping") s1 = (Ok tt, s2) ->
  commit_error s2 = None ->
  register req n w =
    (Ok (jsonify (JDict [("msg", JStr (gettext "Success"))])),
     mkWorld s2 s2
       (trace w ++
        [ev_call (update n (dict_get trm "name") (dict_get trm "schema")
                    (dict_get trm "form") data) None;
         ev_call (mapping_create (JInt n) (dict_get trm "mapping")) None;
         ev_call commit None;
         ev_debug (LStr ("itemtype register: " ++ str_of_int n))])).
Proof.
  intros Hn Hct Hbody Htrm Hupd Hmap Hcommit.
  apply Z.eqb_neq in Hn.
  unfold register; unfold_monad.
  rewrite Hct, String.eqb_refl, Hbody. simpl.
  rewrite !Htrm. simpl. rewrite Hupd. simpl. rewrite Hn, Hmap. simpl.
  rewrite Hcommit. simpl. rewrite <- !app_assoc. reflexivity.
Qed.

(** X7.  [custom_property_new] hands to [ItemTypeProps.create] the
    members [name], [schema], [form1] and [form2] of the body, [None]
    for each one the body does not have, then commits. *)
Theorem custom_property_new_creates req n w members s' :
  req_content_type req = Some "application/json" ->
  json_loads_str (req_body req) = Ok (JDict members) ->
  ItemTypeProps_create n (dict_get members "name") (dict_get members "schema")
    (dict_get members "form1") (dict_get members "form2") (session w)
    = (Ok tt, s') ->
  commit_error s' = None ->
  custom_property_new req n w =
    (Ok (jsonify (JDict [("msg", JStr (gettext "Success"))])),
     mkWorld s' s'
       (trace w ++
        [ev_call (props_create n (dict_get members "name")
                    (dict_get members "schema") (dict_get members "form1")
                    (dict_get members "form2")) None;
         ev_call commit None])).
Proof.
  intros Hct Hbody Hcreate Hcommit.
  unfold custom_property_new; unfold_monad.
  rewrite Hct, String.eqb_refl, Hbody. simpl. rewrite Hcreate. simpl.
  rewrite Hcommit. simpl. rewrite <- !app_assoc. reflexivity.
Qed.

(** X8.  A body that is JSON but not an object (a list, a string, a
    number, [null]) makes each of the three write views fail inside its
    [try] block: the answer is [{msg: _('Fail')}], and the rollback is
    the only call that reaches the data layer or the session. *)
Theorem non_object_body_fails ctx req e data w :
  req_method req = POST ->
  url_map POST (req_path req) = Some e ->
  req_content_type req = Some "application/json" ->
  json_loads_str (req_body req) = Ok data ->
  (forall members, data <> JDict members) ->
  failed_and_rolled_back w (dispatch_request ctx req w) /\
  forall c r,
    In (ev_call c r) (added w (snd (dispatch_request ctx req w))) ->
    c = rollback.
Proof.
  intros Hm Hu Hct Hbody Hdata. unfold dispatch_request. rewrite Hm, Hu.
  pose proof (url_map_POST _ _ Hu) as Hw.
  assert (Hget : forall k, py_get data k = Raise AttributeError).
  { intros k. destruct data; try reflexivity. exfalso. apply (Hdata members).
    reflexivity. }
  destruct e; try discriminate Hw; simpl; unfold_views;
    rewrite Hct, String.eqb_refl, Hbody; simpl; rewrite !Hget; simpl;
    (split; [unfold failed_and_rolled_back; simpl;
             split; [reflexivity | split; [reflexivity | split;
               [reflexivity | apply last_last]]] |]);
    intros c r H; added_in H; injection H as <- _; reflexivity.
Qed.

(** X9.  A body that does not parse is refused by [get_json], before the
    [try] block: the request is aborted with a 400, not answered with
    [{msg: _('Fail')}], and nothing is logged, called or rolled back. *)
Theorem unparsable_body_is_bad_request ctx req e ex w :
  req_method req = POST ->
  url_map POST (req_path req) = Some e ->
  req_content_type req = Some "application/json" ->
  json_loads_str (req_body req) = Raise ex ->
  dispatch_request ctx req w = (Raise (HTTPException 400 None), w).
Proof.
  intros Hm Hu Hct Hbody. unfold dispatch_request. rewrite Hm, Hu.
  pose proof (url_map_POST _ _ Hu) as Hw.
  destruct e; try discriminate Hw; simpl; unfold_views;
    rewrite Hct, String.eqb_refl, Hbody; reflexivity.
Qed.

(** X10.  A POST without a content type raises the [KeyError] of
    [request.headers['Content-Type']], on the key [CONTENT_TYPE] of the
    environ, before anything else happens. *)
Theorem missing_content_type_raises ctx req e w :
  req_method req = POST ->
  url_map POST (req_path req) = Some e ->
  req_content_type req = None ->
  dispatch_request ctx req w = (Raise (KeyError "CONTENT_TYPE"), w).
Proof.
  intros Hm Hu Hct. unfold dispatch_request. rewrite Hm, Hu.
  pose proof (url_map_POST _ _ Hu) as Hw.
  destruct e; try discriminate Hw; simpl; unfold_views;
    rewrite Hct; reflexivity.
Qed.

(** X11.  [render] on a positive id that [ItemTypes.get_by_id] knows
    answers the [render] document of the item type, after that one
    read. *)
Theorem render_known ctx n w it :
  permitted ctx = true ->
  0 < n ->
  ItemTypes_get_by_id n (session w) = Some it ->
  render ctx n w =
    (Ok (jsonify (it_render it)),
     mkWorld (committed w) (session w)
             (trace w ++ [ev_call (get_by_id n) None])).
Proof.
  intros Hp Hn Hit. unfold render. rewrite need_permissions_permitted by assumption.
  unfold_monad. apply Z.gtb_lt in Hn. rewrite Hn. simpl. rewrite Hit. reflexivity.
Qed.

(** X12.  [get_property] on a known id answers the five fields [id],
    [name], [schema], [form] and [forms] of the property. *)
Theorem get_property_known ctx n w p :
  permitted ctx = true ->
  ItemTypeProps_get_record n (session w) = Some p ->
  fst (get_property ctx n w) =
    Ok (jsonify (JDict [("id", JInt (prop_id p)); ("name", prop_name p);
                        ("schema", prop_schema p); ("form", prop_form p);
                        ("forms", prop_forms p)])).
Proof.
  intros Hp Hrec. unfold get_property.
  rewrite need_permissions_permitted by assumption.
  unfold_monad. simpl. rewrite Hrec. reflexivity.
Qed.

Lemma assoc_get_own_fields props : forall p,
  NoDup (map prop_id props) ->
  In p props ->
  assoc_get (str_of_int (prop_id p))
    (map (fun q => (str_of_int (prop_id q), property_fields q)) props)
  = Some (property_fields p).
Proof.
  induction props as [|q rest IH]; intros p Hnd Hin; [contradiction|].
  inversion Hnd as [|? ? Hnotin Hnd']; subst. simpl.
  destruct (String.eqb (str_of_int (prop_id p)) (str_of_int (prop_id q))) eqn:E.
  - destruct Hin as [-> | Hin]; [reflexivity|].
    apply String.eqb_eq, str_of_int_inj in E. exfalso. apply Hnotin.
    rewrite <- E. apply in_map. exact Hin.
  - destruct Hin as [-> | Hin]; [rewrite String.eqb_refl in E; discriminate|].
    apply IH; assumption.
Qed.

(** X13.  When the ids of the properties are distinct, the document of
    [get_property_list] has one member per property and no other: under
    the id written in decimal, an object holding the four fields
    [name], [schema], [form] and [forms] of the property. *)
Theorem get_property_list_by_id ctx w :
  permitted ctx = true ->
  NoDup (map prop_id (ItemTypeProps_get_records (session w))) ->
  exists members,
    fst (get_property_list ctx w) = Ok (jsonify (JDict members)) /\
    List.length members = List.length (ItemTypeProps_get_records (session w)) /\
    (forall p,
       In p (ItemTypeProps_get_records (session w)) ->
       assoc_get (str_of_int (prop_id p)) members
       = Some (JDict [("name", prop_name p); ("schema", prop_schema p);
                      ("form", prop_form p); ("forms", prop_forms p)])) /\
    (forall k v,
       In (k, v) members ->
       exists p,
         In p (ItemTypeProps_get_records (session w)) /\
         k = str_of_int (prop_id p)).
Proof.
  intros Hp Hnd.
  exists (map (fun p => (str_of_int (prop_id p), property_fields p))
              (ItemTypeProps_get_records (session w))).
  split; [|split; [|split]].
  - unfold get_property_list.
    rewrite need_permissions_permitted by assumption.
    unfold_monad. simpl.
    rewrite fold_property_entry; [reflexivity | assumption |].
    intros; reflexivity.
  - apply length_map.
  - intros p Hin. apply (assoc_get_own_fields _ p Hnd Hin).
  - intros k v Hin. apply in_map_iff in Hin. destruct Hin as (p & [= <- _] & Hin).
    exists p. split; [assumption | reflexivity].
Qed.

(** X14.  [mapping_index] is the only view behind a GET rule that does
    not carry [@need_permissions()]: a GET that reaches an ungated view
    reaches it, and is answered alike whatever the permission factory
    says. *)
Theorem mapping_index_is_ungated ctx1 ctx2 req e w :
  req_method req = GET ->
  url_map GET (req_path req) = Some e ->
  permission_gated e = false ->
  (exists n, e = ep_mapping_index n) /\
  dispatch_request ctx1 req w = dispatch_request ctx2 req w.
Proof.
  intros Hm Hu Hg. pose proof (url_map_GET _ _ Hu) as Hr.
  unfold dispatch_request. rewrite Hm, Hu.
  destruct e; try discriminate Hg; try discriminate Hr.
  split; [eexists; reflexivity | reflexivity].
Qed.

(** X15.  The redirect of [mapping_index] leads somewhere: when the
    non-negative id of the first item type resolves, the location of the
    redirect is the URL of a GET request that the URL map gives back to
    [mapping_index] with that id, and that request is answered with
    the mapping page of the first item type, not with another redirect. *)
Theorem mapping_redirect_resolves ctx req n w first others it :
  ItemTypes_get_all (session w) = Some (first :: others) ->
  ItemTypes_get_by_id n (session w) = None ->
  ItemTypes_get_by_id (it_id first) (session w) = Some it ->
  0 <= it_id first ->
  req_method req = GET ->
  req_path req = ["mapping"; str_of_int (it_id first)] ->
  fst (mapping_index n w) = Ok (redirect (url_of_path (req_path req))) /\
  fst (dispatch_request ctx req w) =
    Ok (render_template (config "WEKO_ITEMTYPES_UI_MAPPING_TEMPLATE")
          [("lists", TItemTypes (first :: others));
           ("mapping",
            TStr (json_dumps_indent4
                    (Mapping_get_record (it_id first) (session w))));
           ("id", TInt (it_id first))]).
Proof.
  intros Hall Hnone Hfirst Hpos Hm Hpath. split.
  - rewrite (mapping_index_unknown n w first others Hall Hnone), Hpath.
    reflexivity.
  - unfold dispatch_request. rewrite Hm, Hpath.
    assert (Hu : url_map GET ["mapping"; str_of_int (it_id first)]
                 = Some (ep_mapping_index (it_id first))).
    { unfold url_map. simpl String.eqb.
      rewrite (int_converter_str_of_int _ Hpos). reflexivity. }
    rewrite Hu. simpl.
    rewrite (mapping_index_known (it_id first) w first others it Hall Hfirst).
    reflexivity.
Qed.

(** X16.  A mapping registered by [mapping_register] is the one that
    [mapping_index] shows next for that item type, written by
    [json.dumps(_, indent=4)], in a data layer where [Mapping.get_record]
    returns what [Mapping.create] stored. *)
Theorem registered_mapping_is_shown req n w data encoded mapping s' first others it :
  req_content_type req = Some "application/json" ->
  json_loads_str (req_body req) = Ok data ->
  py_get data "item_type_id" = Ok (JInt n) ->
  py_get data "mapping" = Ok (JStr encoded) ->
  json_loads_str encoded = Ok mapping ->
  Mapping_create (JInt n) mapping (session w) = (Ok tt, s') ->
  commit_error s' = None ->
  ItemTypes_get_all s' = Some (first :: others) ->
  ItemTypes_get_by_id n s' = Some it ->
  Mapping_get_record n s' = mapping ->
  fst (mapping_index n (snd (mapping_register req w))) =
    Ok (render_template (config "WEKO_ITEMTYPES_UI_MAPPING_TEMPLATE")
          [("lists", TItemTypes (first :: others));
           ("mapping", TStr (json_dumps_indent4 mapping));
           ("id", TInt n)]).
Proof.
  intros Hct Hbody Hid Henc Hloads Hcreate Hcommit Hall Hit Hrec.
  assert (Hrun : snd (mapping_register req w) =
                 mkWorld s' s'
                   (trace w ++ [ev_debug (LJson data);
                                ev_call (mapping_create (JInt n) mapping) None;
                                ev_call commit None])).
  { unfold mapping_register; unfold_monad.
    rewrite Hct, String.eqb_refl, Hbody. simpl.
    rewrite Hid, Henc. simpl. rewrite Hloads, Hcreate. simpl.
    rewrite Hcommit. rewrite <- !app_assoc. reflexivity. }
  rewrite Hrun.
  rewrite (mapping_index_known n (mkWorld s' s' _) first others it Hall Hit).
  simpl. rewrite Hrec. reflexivity.
Qed.

(** X17.  [index] shows the register page with the item types of
    [get_latest] and the id of the URL, which is 0 for [/] and for
    [/register]. *)
Theorem index_shows_url_id ctx req n w :
  permitted ctx = true ->
  req_method req = GET ->
  url_map GET (req_path req) = Some (ep_index n) ->
  dispatch_request ctx req w =
    (Ok (render_template (config "WEKO_ITEMTYPES_UI_REGISTER_TEMPLATE")
           [("lists", TItemTypes (ItemTypes_get_latest (session w)));
            ("id", TInt n)]),
     mkWorld (committed w) (session w) (trace w ++ [ev_call get_latest None])) /\
  (req_path req = [] \/ req_path req = ["register"] -> n = 0).
Proof.
  intros Hp Hm Hu. split.
  - unfold dispatch_request. rewrite Hm, Hu. simpl. unfold index.
    rewrite need_permissions_permitted by assumption. reflexivity.
  - intros [Hpath | Hpath]; rewrite Hpath in Hu; simpl in Hu; congruence.
Qed.

(** X18.  [register] calls [Mapping.create] only after
    [ItemTypes.update] has returned a record, and under the id of that
    record when its own id is 0, under its own id otherwise. *)
Theorem register_maps_after_update req n w data i m r :
  req_content_type req = Some "application/json" ->
  json_loads_str (req_body req) = Ok data ->
  In (ev_call (mapping_create i m) r) (added w (snd (register req n w))) ->
  exists name schema form record s1,
    ItemTypes_update n name schema form data (session w) = (Ok record, s1) /\
    In (ev_call (update n name schema form data) None)
       (added w (snd (register req n w))) /\
    i = JInt (if n =? 0 then it_id (model record) else n).
Proof.
  intros Hct Hbody. unfold register; unfold_monad.
  rewrite Hct, String.eqb_refl, Hbody. simpl.
  repeat (case_call; simpl); intros H; added_in H;
    injection H as <- <- _;
    eexists _, _, _, _, _; (split; [eassumption | split; [added_has | reflexivity]]).
Qed.

(** X19.  A write view commits only when no earlier call has raised:
    in a request that reaches the commit, the commit is the only call
    that can have raised. *)
Theorem commit_follows_clean_writes ctx req e data w rc :
  req_method req = POST ->
  url_map POST (req_path req) = Some e ->
  req_content_type req = Some "application/json" ->
  json_loads_str (req_body req) = Ok data ->
  In (ev_call commit rc) (added w (snd (dispatch_request ctx req w))) ->
  forall c ex,
    In (ev_call c (Some ex)) (added w (snd (dispatch_request ctx req w))) ->
    c = commit.
Proof.
  intros Hm Hu Hct Hbody. unfold dispatch_request. rewrite Hm, Hu.
  pose proof (url_map_POST _ _ Hu) as Hw.
  destruct e; try discriminate Hw; simpl; unfold_views;
    rewrite Hct, String.eqb_refl, Hbody; simpl;
    repeat (case_call; simpl);
    intros H; added_in H; intros c ex H'; added_in H';
    injection H' as <- _; reflexivity.
Qed.

End Coverage.

(** * The added properties on the in-memory instance *)

Lemma check_permission_aborts_iff_witness :
  fst (check_permission Memory.member (Some false) true
         (Memory.fresh Memory.library))
  = Raise (HTTPException 404 None).
Proof.
  refine (proj2 (proj2 (check_permission_aborts_iff Memory.member (Some false)
                          true (Memory.fresh Memory.library))) _).
  reflexivity.
Defined.

Lemma permitted_requests_served_alike_witness :
  dispatch_request Memory.admin (Memory.get_request ["property"; "list"])
    (Memory.fresh Memory.catalogue)
  = dispatch_request Memory.guest (Memory.get_request ["property"; "list"])
      (Memory.fresh Memory.catalogue).
Proof.
  refine (permitted_requests_served_alike Memory.admin Memory.guest
            (Memory.get_request ["property"; "list"])
            (Memory.fresh Memory.catalogue) _ _); reflexivity.
Defined.

Lemma get_is_read_only_witness :
  committed (snd (dispatch_request Memory.admin (Memory.get_request ["mapping"; "2"])
                    (Memory.fresh Memory.library)))
  = Memory.library /\
  session (snd (dispatch_request Memory.admin (Memory.get_request ["mapping"; "2"])
                  (Memory.fresh Memory.library)))
  = Memory.library /\
  forall c r,
    In (ev_call c r)
       (added (Memory.fresh Memory.library)
          (snd (dispatch_request Memory.admin (Memory.get_request ["mapping"; "2"])
                  (Memory.fresh Memory.library)))) ->
    is_write_call c = false /\ r = None.
Proof.
  refine (get_is_read_only Memory.admin (Memory.get_request ["mapping"; "2"])
            (Memory.fresh Memory.library) _).
  reflexivity.
Defined.

Lemma write_outcomes_witness :
  succeeded_and_committed (Memory.fresh Memory.library)
    (dispatch_request Memory.anonymous Memory.register_request
       (Memory.fresh Memory.library)) \/
  (failed_and_rolled_back (Memory.fresh Memory.library)
     (dispatch_request Memory.anonymous Memory.register_request
        (Memory.fresh Memory.library)) /\
   ~ In (ev_call commit None)
       (added (Memory.fresh Memory.library)
          (snd (dispatch_request Memory.anonymous Memory.register_request
                  (Memory.fresh Memory.library))))) \/
  (exists n ex,
     ep_register 0 = ep_custom_property_new n /\
     fst (dispatch_request Memory.anonymous Memory.register_request
            (Memory.fresh Memory.library)) = Raise ex /\
     is_Exception ex = false /\
     committed (snd (dispatch_request Memory.anonymous Memory.register_request
                       (Memory.fresh Memory.library)))
     = committed (Memory.fresh Memory.library) /\
     ~ In (ev_call rollback None)
         (added (Memory.fresh Memory.library)
            (snd (dispatch_request Memory.anonymous Memory.register_request
                    (Memory.fresh Memory.library))))).
Proof.
  refine (write_outcomes Memory.anonymous Memory.register_request (ep_register 0)
            Memory.register_data (Memory.fresh Memory.library) _ _ _ _).
  - reflexivity.
  - reflexivity.
  - reflexivity.
  - vm_compute; reflexivity.
Defined.

Lemma register_existing_maps_under_id_witness :
  fst (register Memory.update_request 2 (Memory.fresh Memory.library))
  = Ok (jsonify (JDict [("msg", JStr "Success")])) /\
  Memory.lookup_Z 2
    (Memory.mappings
       (committed (snd (register Memory.update_request 2
                          (Memory.fresh Memory.library)))))
  = Some (JDict [("title", JInt 1)]).
Proof.
  erewrite (register_existing_maps_under_id Memory.update_request 2
              (Memory.fresh Memory.library) Memory.register_data
              [("name", JStr "Article"); ("schema", JDict []);
               ("form", JList []); ("mapping", JDict [("title", JInt 1)])])
    by first [discriminate | reflexivity | (vm_compute; reflexivity)].
  split; reflexivity.
Defined.

Lemma custom_property_new_creates_witness :
  custom_property_new Memory.empty_object_request 4 (Memory.fresh Memory.library)
  = (Ok (jsonify (JDict [("msg", JStr "Success")])),
     mkWorld
       (Memory.mkStore [Memory.article; Memory.thesis]
          [(1, JStr "Article"); (2, JStr "Thesis")]
          [mkItemTypeProperty 4 JNull JNull JNull JNull]
          [(2, JDict [("title", JDict [("jpcoar", JStr "dc:title")])])] [])
       (Memory.mkStore [Memory.article; Memory.thesis]
          [(1, JStr "Article"); (2, JStr "Thesis")]
          [mkItemTypeProperty 4 JNull JNull JNull JNull]
          [(2, JDict [("title", JDict [("jpcoar", JStr "dc:title")])])] [])
       [ev_call (props_create 4 JNull JNull JNull JNull) None;
        ev_call commit None]).
Proof.
  refine (custom_property_new_creates Memory.empty_object_request 4
            (Memory.fresh Memory.library) [] _ _ _ _ _).
  - reflexivity.
  - vm_compute; reflexivity.
  - reflexivity.
  - reflexivity.
Defined.

Lemma non_object_body_fails_witness :
  failed_and_rolled_back (Memory.fresh Memory.library)
    (dispatch_request Memory.anonymous Memory.array_request
       (Memory.fresh Memory.library)) /\
  forall c r,
    In (ev_call c r)
       (added (Memory.fresh Memory.library)
          (snd (dispatch_request Memory.anonymous Memory.array_request
                  (Memory.fresh Memory.library)))) ->
    c = rollback.
Proof.
  refine (non_object_body_fails Memory.anonymous Memory.array_request
            ep_mapping_register (JList []) (Memory.fresh Memory.library)
            _ _ _ _ _).
  - reflexivity.
  - reflexivity.
  - reflexivity.
  - vm_compute; reflexivity.
  - intros members. discriminate.
Defined.

Lemma unparsable_body_is_bad_request_witness :
  dispatch_request Memory.admin Memory.truncated_request
    (Memory.fresh Memory.library)
  = (Raise (HTTPException 400 None), Memory.fresh Memory.library).
Proof.
  refine (unparsable_body_is_bad_request Memory.admin Memory.truncated_request
            (ep_register 0) JSONDecodeError (Memory.fresh Memory.library)
            _ _ _ _).
  - reflexivity.
  - reflexivity.
  - reflexivity.
  - vm_compute; reflexivity.
Defined.

Lemma missing_content_type_raises_witness :
  dispatch_request Memory.admin Memory.bare_request (Memory.fresh Memory.library)
  = (Raise (KeyError "CONTENT_TYPE"), Memory.fresh Memory.library).
Proof.
  refine (missing_content_type_raises Memory.admin Memory.bare_request
            (ep_register 0) (Memory.fresh Memory.library) _ _ _); reflexivity.
Defined.

Lemma render_known_witness :
  render Memory.admin 1 (Memory.fresh Memory.library)
  = (Ok (jsonify (JDict [("table_row", JList [JStr "title"])])),
     mkWorld Memory.library Memory.library [ev_call (get_by_id 1) None]).
Proof.
  refine (render_known Memory.admin 1 (Memory.fresh Memory.library)
            Memory.article _ _ _).
  - reflexivity.
  - reflexivity.
  - reflexivity.
Defined.

Lemma get_property_known_witness :
  fst (get_property Memory.admin 4 (Memory.fresh Memory.catalogue))
  = Ok (jsonify (JDict [("id", JInt 4); ("name", JStr "Title");
                        ("schema", JDict [("type", JStr "string")]);
                        ("form", JDict [("key", JStr "title")]);
                        ("forms", JList [])])).
Proof.
  refine (get_property_known Memory.admin 4 (Memory.fresh Memory.catalogue)
            Memory.title_property _ _); reflexivity.
Defined.

Lemma get_property_list_by_id_witness :
  exists members,
    fst (get_property_list Memory.admin (Memory.fresh Memory.catalogue))
    = Ok (jsonify (JDict members)) /\
    List.length members = 2%nat /\
    assoc_get "4" members
    = Some (JDict [("name", JStr "Title");
                   ("schema", JDict [("type", JStr "string")]);
                   ("form", JDict [("key", JStr "title")]);
                   ("forms", JList [])]) /\
    assoc_get "9" members
    = Some (JDict [("name", JStr "Creator"); ("schema", JDict []);
                   ("form", JDict []); ("forms", JList [])]).
Proof.
  assert (Hnd : NoDup (map prop_id
                         (ItemTypeProps_get_records
                            (session (Memory.fresh Memory.catalogue)))))
    by (repeat constructor; simpl; intuition discriminate).
  destruct (get_property_list_by_id Memory.admin (Memory.fresh Memory.catalogue)
              eq_refl Hnd)
    as (members & Hrun & Hlen & Hget & _).
  exists members. split; [exact Hrun | split; [exact Hlen | split]].
  - refine (Hget Memory.title_property _). left. reflexivity.
  - refine (Hget Memory.creator_property _). right. left. reflexivity.
Defined.

Lemma mapping_index_is_ungated_witness :
  (exists n, ep_mapping_index 0 = ep_mapping_index n) /\
  dispatch_request Memory.admin (Memory.get_request ["mapping"])
    (Memory.fresh Memory.library)
  = dispatch_request Memory.anonymous (Memory.get_request ["mapping"])
      (Memory.fresh Memory.library).
Proof.
  refine (mapping_index_is_ungated Memory.admin Memory.anonymous
            (Memory.get_request ["mapping"]) (ep_mapping_index 0)
            (Memory.fresh Memory.library) _ _ _); reflexivity.
Defined.

Lemma mapping_redirect_resolves_witness :
  fst (mapping_index 7 (Memory.fresh Memory.library))
  = Ok (redirect "/itemtypes/mapping/1") /\
  fst (dispatch_request Memory.anonymous (Memory.get_request ["mapping"; "1"])
         (Memory.fresh Memory.library))
  = Ok (render_template "WEKO_ITEMTYPES_UI_MAPPING_TEMPLATE"
          [("lists", TItemTypes [Memory.article; Memory.thesis]);
           ("mapping", TStr "null");
           ("id", TInt 1)]).
Proof.
  refine (mapping_redirect_resolves Memory.anonymous
            (Memory.get_request ["mapping"; "1"]) 7
            (Memory.fresh Memory.library) Memory.article [Memory.thesis]
            Memory.article _ _ _ _ _ _).
  - reflexivity.
  - reflexivity.
  - reflexivity.
  - simpl. lia.
  - reflexivity.
  - reflexivity.
Defined.

Lemma registered_mapping_is_shown_witness :
  fst (mapping_index 2
         (snd (mapping_register Memory.thesis_mapping_request
                 (Memory.fresh Memory.library))))
  = Ok (render_template "WEKO_ITEMTYPES_UI_MAPPING_TEMPLATE"
          [("lists", TItemTypes [Memory.article; Memory.thesis]);
           ("mapping", TStr (Memory.dq "{
    'a': 1
}"));
           ("id", TInt 2)]).
Proof.
  refine (registered_mapping_is_shown Memory.thesis_mapping_request 2
            (Memory.fresh Memory.library)
            (JDict [("item_type_id", JInt 2);
                    ("mapping", JStr (Memory.dq "{'a':1}"))])
            (Memory.dq "{'a':1}") (JDict [("a", JInt 1)])
            (snd (Memory.store_mapping_create (JInt 2) (JDict [("a", JInt 1)])
                    Memory.library))
            Memory.article [Memory.thesis] Memory.thesis
            _ _ _ _ _ _ _ _ _ _).
  - reflexivity.
  - vm_compute; reflexivity.
  - reflexivity.
  - reflexivity.
  - vm_compute; reflexivity.
  - reflexivity.
  - reflexivity.
  - reflexivity.
  - reflexivity.
  - reflexivity.
Defined.

Lemma index_shows_url_id_witness :
  dispatch_request Memory.admin (Memory.get_request ["12"])
    (Memory.fresh Memory.library)
  = (Ok (render_template "WEKO_ITEMTYPES_UI_REGISTER_TEMPLATE"
           [("lists", TItemTypes [Memory.thesis; Memory.article]);
            ("id", TInt 12)]),
     mkWorld Memory.library Memory.library [ev_call get_latest None]).
Proof.
  refine (proj1 (index_shows_url_id Memory.admin (Memory.get_request ["12"]) 12
                   (Memory.fresh Memory.library) _ _ _)); reflexivity.
Defined.

Lemma register_maps_after_update_witness :
  exists name schema form record s1,
    ItemTypes_update 0 name schema form Memory.register_data Memory.library
    = (Ok record, s1) /\
    In (ev_call (update 0 name schema form Memory.register_data) None)
       (added (Memory.fresh Memory.library)
          (snd (register Memory.register_request 0
                  (Memory.fresh Memory.library)))) /\
    JInt 3 = JInt (if 0 =? 0 then it_id (model record) else 0).
Proof.
  refine (register_maps_after_update Memory.register_request 0
            (Memory.fresh Memory.library) Memory.register_data
            (JInt 3) (JDict [("title", JInt 1)]) None _ _ _).
  - reflexivity.
  - vm_compute; reflexivity.
  - vm_compute. right. left. reflexivity.
Defined.

Lemma commit_follows_clean_writes_witness :
  In (ev_call commit (Some (Error "OperationalError")))
     (added (Memory.fresh (Memory.store_failing Memory.at_commit
                             (Error "OperationalError")))
        (snd (dispatch_request Memory.anonymous Memory.register_request
                (Memory.fresh (Memory.store_failing Memory.at_commit
                                 (Error "OperationalError")))))) /\
  commit = commit.
Proof.
  assert (Hin : In (ev_call commit (Some (Error "OperationalError")))
     (added (Memory.fresh (Memory.store_failing Memory.at_commit
                             (Error "OperationalError")))
        (snd (dispatch_request Memory.anonymous Memory.register_request
                (Memory.fresh (Memory.store_failing Memory.at_commit
                                 (Error "OperationalError")))))))
    by (vm_compute; right; right; left; reflexivity).
  split; [exact Hin|].
  refine (commit_follows_clean_writes Memory.anonymous Memory.register_request
            (ep_register 0) Memory.register_data
            (Memory.fresh (Memory.store_failing Memory.at_commit
                             (Error "OperationalError")))
            (Some (Error "OperationalError")) _ _ _ _ Hin
            commit (Error "OperationalError") Hin).
  - reflexivity.
  - reflexivity.
  - reflexivity.
  - vm_compute; reflexivity.
Defined.
